(** * groqflow: the ONNX export stages of [justgroqit]

    A shallow embedding of [src/groqflow/justgroqit/export.py]: the artifact
    validator [_check_model] and the [fire] methods of the five stages
    [ReceiveOnnxModel], [ExportPytorchModel], [OptimizeOnnxModel],
    [CheckOnnxCompatibility] and [ConvertOnnxToFp16].

    A stage mutates the [build.State] object it is given, reads and writes
    files, prints to the build log and may raise.  All of this is threaded
    through a small state-and-exception monad over a [World] made of the
    state object, the file system and a trace of the observable events. *)

From Stdlib Require Import ZArith Ascii String List Lia.
From stdpp Require Import base gmap strings list pretty.

Open Scope string_scope.
Open Scope list_scope.
Open Scope Z_scope.

(** ** Python strings *)

Module Py.

Definition nl : string := String "010"%char "".
Definition tab : string := String "009"%char "".
Definition dquote : string := String "034"%char "".

(** A triple-quoted literal, line by line. *)
Definition lines (l : list string) : string := String.concat nl l.

(** [s.endswith(suffix)] *)
Definition endswith (s suffix : string) : bool :=
  let n := String.length s in
  let k := String.length suffix in
  (k <=? n)%nat && String.eqb (String.substring (n - k) k s) suffix.

(** [sep.join(l)] *)
Definition join (sep : string) (l : list string) : string :=
  String.concat sep l.

(** [repr] of a list of identifiers: ['a', 'b'] *)
Definition repr_str (s : string) : string := "'" +:+ s +:+ "'".
Definition repr_list (l : list string) : string :=
  "[" +:+ join ", " (map repr_str l) +:+ "]".

(** [sub in s] *)
Definition contains (sub s : string) : Prop :=
  exists pre post, s = pre +:+ sub +:+ post.

(** [re.search(r"\d+", s)]: the leftmost maximal run of digits. *)
Definition is_digit (c : ascii) : bool :=
  (48 <=? nat_of_ascii c)%nat && (nat_of_ascii c <=? 57)%nat.

Fixpoint take_digits (s : string) : string :=
  match s with
  | String c r => if is_digit c then String c (take_digits r) else ""
  | EmptyString => ""
  end.

Fixpoint re_search_digits (s : string) : option string :=
  match s with
  | String c r =>
      if is_digit c then Some (String c (take_digits r))
      else re_search_digits r
  | EmptyString => None
  end.

(** [int(digits)] on a run of decimal digits. *)
Fixpoint int_acc (acc : Z) (s : string) : Z :=
  match s with
  | String c r => int_acc (10 * acc + (Z.of_nat (nat_of_ascii c) - 48)) r
  | EmptyString => acc
  end.
Definition int (s : string) : Z := int_acc 0 s.

(** ** Python dicts, as insertion-ordered association lists *)

Section Dict.
Context {V : Type}.

Definition dict := list (string * V).

Definition keys (d : dict) : list string := map fst d.
Definition values (d : dict) : list V := map snd d.

(** [k in d] *)
Definition mem (k : string) (ks : list string) : bool :=
  existsb (String.eqb k) ks.

Fixpoint get (d : dict) (k : string) : option V :=
  match d with
  | [] => None
  | (k', v) :: d' => if String.eqb k k' then Some v else get d' k
  end.

(** [d[k] = v]: overwrite in place, or append a new key. *)
Fixpoint setitem (d : dict) (k : string) (v : V) : dict :=
  match d with
  | [] => [(k, v)]
  | (k', v') :: d' =>
      if String.eqb k k' then (k', v) :: d' else (k', v') :: setitem d' k v
  end.

(** [dict(pairs)] *)
Definition of_pairs (pairs : list (string * V)) : dict :=
  fold_left (fun d kv => setitem d (fst kv) (snd kv)) pairs [].

(** [zip(a, b)] *)
Definition zip (ks : list string) (vs : list V) : list (string * V) :=
  combine ks vs.
End Dict.
Arguments dict : clear implicits.

End Py.

(** ** Tensors, models and files *)

Inductive DType := float16 | float32 | float64 | int32 | int64.

Record Tensor := mkTensor {
  dtype : DType;
  shape : list Z;
  storage : list Z
}.

(** A value of [state.inputs]: a tensor, or Python's [None]. *)
Definition PyValue := option Tensor.

(** What [state.model] may hold.  A [TorchModule] is a [torch.nn.Module]
    that is not scripted; a [ScriptModule] is a [torch.jit.ScriptModule]
    (itself a subclass of [torch.nn.Module]).  [forward_params] are the keys
    of [inspect.signature(model.forward).parameters]. *)
Inductive PyObject :=
| PyStr (s : string)
| TorchModule (cls : string) (forward_params : list string)
| ScriptModule (cls : string) (forward_params : list string)
| PyOther (cls : string).

Definition type_name (o : PyObject) : string :=
  match o with
  | PyStr _ => "str"
  | TorchModule cls _ => cls
  | ScriptModule cls _ => cls
  | PyOther cls => cls
  end.

(** [str(type(o))] *)
Definition type_repr (o : PyObject) : string :=
  "<class '" +:+ type_name o +:+ "'>".

(** A dimension of a declared graph input: the protobuf [oneof] of a
    concrete [dim_value], a symbolic [dim_param], or neither.  Reading
    [dim_value] of a dimension that does not carry one yields the default 0. *)
Inductive Dimension :=
| DimValue (v : Z)
| DimParam (p : string)
| DimUnset.

Definition dim_value (d : Dimension) : Z :=
  match d with
  | DimValue v => v
  | DimParam _ => 0
  | DimUnset => 0
  end.

Record ValueInfo := mkValueInfo {
  vi_name : string;
  vi_dim : list Dimension        (* _input.type.tensor_type.shape.dim *)
}.

(** A parsed ONNX model.  [opset_import_str] is [str(model.opset_import)],
    the text rendering of the repeated operator-set field that the stage
    searches for its first number. *)
Record ModelProto := mkModelProto {
  opset_import_str : string;
  graph_input : list ValueInfo;
  graph_node : list string       (* op_type of every node *)
}.

Inductive File :=
| OnnxFile (m : ModelProto)
| InputsFile (saved : list (Py.dict PyValue))
| RawFile (bytes : string).

(** ** build.State *)

Record BuildInfo := mkBuildInfo {
  base_onnx_exported : option bool;
  opset : option Z;
  opt_onnx_exported : option bool;
  opt_onnx_ops : option (list string);
  opt_onnx_unsupported_ops : option (list string);
  opt_onnx_all_ops_supported : option bool;
  converted_onnx_exported : option bool
}.

Record State := mkState {
  model : PyObject;
  inputs : Py.dict PyValue;
  base_onnx_file : string;
  original_inputs_file : string;
  opt_onnx_file : string;
  converted_onnx_file : string;
  intermediate_results : list string;
  info : BuildInfo;
  use_sdk : bool
}.

Definition set_inputs (v : Py.dict PyValue) (s : State) : State :=
  mkState (model s) v (base_onnx_file s) (original_inputs_file s)
          (opt_onnx_file s) (converted_onnx_file s) (intermediate_results s)
          (info s) (use_sdk s).

Definition set_intermediate_results (v : list string) (s : State) : State :=
  mkState (model s) (inputs s) (base_onnx_file s) (original_inputs_file s)
          (opt_onnx_file s) (converted_onnx_file s) v (info s) (use_sdk s).

Definition set_info (f : BuildInfo -> BuildInfo) (s : State) : State :=
  mkState (model s) (inputs s) (base_onnx_file s) (original_inputs_file s)
          (opt_onnx_file s) (converted_onnx_file s) (intermediate_results s)
          (f (info s)) (use_sdk s).

Definition set_base_onnx_exported (b : bool) (i : BuildInfo) : BuildInfo :=
  mkBuildInfo (Some b) (opset i) (opt_onnx_exported i) (opt_onnx_ops i)
              (opt_onnx_unsupported_ops i) (opt_onnx_all_ops_supported i)
              (converted_onnx_exported i).

Definition set_opset (v : Z) (i : BuildInfo) : BuildInfo :=
  mkBuildInfo (base_onnx_exported i) (Some v) (opt_onnx_exported i)
              (opt_onnx_ops i) (opt_onnx_unsupported_ops i)
              (opt_onnx_all_ops_supported i) (converted_onnx_exported i).

Definition set_opt_onnx_exported (b : bool) (i : BuildInfo) : BuildInfo :=
  mkBuildInfo (base_onnx_exported i) (opset i) (Some b) (opt_onnx_ops i)
              (opt_onnx_unsupported_ops i) (opt_onnx_all_ops_supported i)
              (converted_onnx_exported i).

Definition set_opt_onnx_ops (ops unsupported : list string) (i : BuildInfo)
  : BuildInfo :=
  mkBuildInfo (base_onnx_exported i) (opset i) (opt_onnx_exported i)
              (Some ops) (Some unsupported) (opt_onnx_all_ops_supported i)
              (converted_onnx_exported i).

Definition set_opt_onnx_all_ops_supported (b : bool) (i : BuildInfo)
  : BuildInfo :=
  mkBuildInfo (base_onnx_exported i) (opset i) (opt_onnx_exported i)
              (opt_onnx_ops i) (opt_onnx_unsupported_ops i) (Some b)
              (converted_onnx_exported i).

Definition set_converted_onnx_exported (b : bool) (i : BuildInfo) : BuildInfo :=
  mkBuildInfo (base_onnx_exported i) (opset i) (opt_onnx_exported i)
              (opt_onnx_ops i) (opt_onnx_unsupported_ops i)
              (opt_onnx_all_ops_supported i) (Some b).

(** ** Exceptions, events and the environment of a build *)

Inductive Stage :=
| ReceiveOnnxModel
| ExportPytorchModel
| OptimizeOnnxModel
| CheckOnnxCompatibility
| ConvertOnnxToFp16.

(** Exceptions.  [GroqitStageError] and [ValueError] are the ones the stages
    raise themselves; [ExternalError] is whatever an external collaborator
    raises from inside its own call. *)
Inductive Exception :=
| GroqitStageError (msg : string)
| ValueError (msg : string)
| IndexError (msg : string)
| AttributeError (msg : string)
| FileNotFoundError (path : string)
| DecodeError (path : string)
| ValidationError (msg : string)
| ExternalError (who msg : string).

Inductive Result (A : Type) :=
| Return (a : A)
| Raise (e : Exception).
Arguments Return {A} a.
Arguments Raise {A} e.

(** What a call into a collaborator comes back with. *)
Inductive Outcome (A : Type) :=
| Done (a : A)
| Failed (msg : string).
Arguments Done {A} a.
Arguments Failed {A} msg.

(** The observable events of a stage: what it prints and which
    collaborators it calls, in order. *)
Inductive Event :=
| EvPrint (text : string)
| EvTorchOnnxExport (m : PyObject) (args : list PyValue) (f : string)
    (input_names output_names : list string) (opset_version : Z)
| EvShutilMove (src dst : string)
| EvSaveInputs (saved : list (Py.dict PyValue)) (inputs_file : string)
| EvInferenceSession (input_onnx optimized_model_filepath : string)
| EvCheckDependencies (require_devtools : bool)
| EvCheckOps (input_onnx : string) (with_sdk : bool)
| EvConvertFloat16 (input_onnx : string)
| EvSaveModel (path : string).

(** The constants of [groqflow.common.build] and the external collaborators,
    none of which is part of export.py.

    - [onnx_checker f] is [onnx.checker.check_model] on a file: [None] when
      the file passes, [Some e] when the checker raises its
      [ValidationError] with message [e].
    - [torch_onnx_export], [ort_optimize]: [Done (Some f)] when the call
      returns having written [f] at the path it was given, [Done None] when
      it returns without a file, [Failed] when it raises.
    - [check_dependencies require_devtools]: [Some msg] when the SDK is
      missing, in which case the exception type handed over is raised.
    - [check_ops]: the operator-support oracle, returning the operators of
      the graph and the unsupported ones. *)
Record Env := mkEnv {
  DEFAULT_ONNX_OPSET : Z;
  MINIMUM_ONNX_OPSET : Z;
  logfile_path : Stage -> string;
  onnx_checker : File -> option string;
  torch_onnx_export :
    PyObject -> list PyValue -> list string -> Z -> Outcome (option File);
  ort_optimize : option File -> Outcome (option File);
  convert_float_to_float16 : ModelProto -> Outcome ModelProto;
  check_dependencies : bool -> option string;
  check_ops : option File -> bool -> Outcome (list string * list string)
}.

Record World := mkWorld {
  state : State;
  fs : gmap string File;
  trace : list Event
}.

(** ** The state-and-exception monad *)

Definition M (A : Type) : Type := World -> Result A * World.

Definition ret {A} (a : A) : M A := fun w => (Return a, w).

Definition raise {A} (e : Exception) : M A := fun w => (Raise e, w).

Definition bind {A B} (m : M A) (k : A -> M B) : M B :=
  fun w =>
    match m w with
    | (Return a, w') => k a w'
    | (Raise e, w') => (Raise e, w')
    end.

Notation "x <- c1 ;; c2" := (bind c1 (fun x => c2))
  (at level 100, c1 at next level, right associativity).
Notation "c1 ;; c2" := (bind c1 (fun _ => c2))
  (at level 100, right associativity).

(** [try: body except ValidationError as e: handler(e)] *)
Definition try_except_ValidationError {A} (body : M A)
    (handler : string -> M A) : M A :=
  fun w =>
    match body w with
    | (Raise (ValidationError e), w') => handler e w'
    | r => r
    end.

(** [for x in l: body(x)] *)
Fixpoint for_ {A} (l : list A) (body : A -> M unit) : M unit :=
  match l with
  | [] => ret tt
  | x :: l' => body x ;; for_ l' body
  end.

Definition gets {A} (f : State -> A) : M A :=
  fun w => (Return (f (state w)), w).

Definition modify (f : State -> State) : M unit :=
  fun w => (Return tt, mkWorld (f (state w)) (fs w) (trace w)).

Definition emit (e : Event) : M unit :=
  fun w => (Return tt, mkWorld (state w) (fs w) (trace w ++ [e])).

Definition read_file (path : string) : M (option File) :=
  fun w => (Return (fs w !! path), w).

Definition write_file (path : string) (f : File) : M unit :=
  fun w => (Return tt, mkWorld (state w) (<[path := f]> (fs w)) (trace w)).

Definition remove_file (path : string) : M unit :=
  fun w => (Return tt, mkWorld (state w) (delete path (fs w)) (trace w)).

Definition print (text : string) : M unit := emit (EvPrint text).

(** [l[0]] *)
Definition getitem0 (l : list string) : M string :=
  match l with
  | x :: _ => ret x
  | [] => raise (IndexError "list index out of range")
  end.

Definition outcome {A} (who : string) (o : Outcome A) : M A :=
  match o with
  | Done a => ret a
  | Failed msg => raise (ExternalError who msg)
  end.

(** ** Library calls on the file system *)

(** [os.path.isfile] *)
Definition os_path_isfile (path : string) : M bool :=
  f <- read_file path ;;
  ret (match f with Some _ => true | None => false end).

(** [onnx.load] and [onnx.load_model] *)
Definition onnx_load (path : string) : M ModelProto :=
  f <- read_file path ;;
  match f with
  | Some (OnnxFile m) => ret m
  | Some _ => raise (DecodeError path)
  | None => raise (FileNotFoundError path)
  end.

(** [shutil.move(src, dst)] on plain files *)
Definition shutil_move (src dst : string) : M unit :=
  emit (EvShutilMove src dst) ;;
  f <- read_file src ;;
  match f with
  | Some c => remove_file src ;; write_file dst c
  | None => raise (FileNotFoundError src)
  end.

(** [onnxmltools.utils.save_model] *)
Definition save_model (m : ModelProto) (path : string) : M unit :=
  emit (EvSaveModel path) ;;
  write_file path (OnnxFile m).

(** The precision narrowing of persisted inputs: no 64-bit integers, no
    wide floats. *)
Definition narrow_dtype (d : DType) : DType :=
  match d with
  | float32 | float64 => float16
  | int64 => int32
  | d => d
  end.

Definition narrow (v : PyValue) : PyValue :=
  match v with
  | Some t => Some (mkTensor (narrow_dtype (dtype t)) (shape t) (storage t))
  | None => None
  end.

(** Modelled from the spec: [tensor_helpers.save_inputs] is not part of
    export.py.  Section 6 of the spec has the named-input mapping
    serialized to a fixed artifact, with no 64-bit integer or wide
    floating types persisted. *)
Definition save_inputs (saved : list (Py.dict PyValue)) (inputs_file : string)
  : M unit :=
  emit (EvSaveInputs saved inputs_file) ;;
  write_file inputs_file
    (InputsFile (map (map (fun kv => (fst kv, narrow (snd kv)))) saved)).

(** ** export.py *)

Section ExportStages.
Context (E : Env).

Definition sp12 : string := "            ".
Definition sp16 : string := "                ".
Definition sp20 : string := "                    ".

Definition more_information (s : Stage) : string :=
  "More information may be available in the log file at **"
    +:+ logfile_path E s +:+ "**".

(** *** _check_model *)

(** [onnx.checker.check_model(onnx_file)] on a path *)
Definition onnx_checker_check_model (onnx_file : string) : M unit :=
  f <- read_file onnx_file ;;
  match f with
  | Some c =>
      match onnx_checker E c with
      | None => ret tt
      | Some e => raise (ValidationError e)
      end
  | None =>
      raise (ValidationError ("Unable to open proto file: " +:+ onnx_file))
  end.

Definition _check_model (onnx_file success_message fail_message : string)
  : M bool :=
  isfile <- os_path_isfile onnx_file ;;
  if isfile then
    print success_message ;;
    try_except_ValidationError
      (onnx_checker_check_model onnx_file ;;
       print (Py.tab +:+ "Successfully checked onnx file") ;;
       ret true)
      (fun e =>
         print (Py.tab +:+ "Error while checking generated ONNX file") ;;
         print e ;;
         ret false)
  else
    print fail_message ;;
    ret false.

(** *** ReceiveOnnxModel *)

Definition msg_receive_type (m : PyObject) : string :=
  Py.lines [
    "";
    sp12 +:+ "The current stage (ReceiveOnnxModel) is only compatible with";
    sp12 +:+ "ONNX files, however the stage received a model of type";
    sp12 +:+ type_repr m +:+ ".";
    sp12 ].

Definition msg_receive_path (path : string) : string :=
  Py.lines [
    "";
    sp12 +:+ "The current stage (ReceiveOnnxModel) expects a path to ONNX";
    sp12 +:+ "model, however the stage received " +:+ path +:+ ".";
    sp12 ].

Definition msg_dynamic : string :=
  Py.lines [
    "";
    sp20 +:+ "The received model has dynamic input dimensions. Please freeze the model with static";
    sp20 +:+ "input dimensions.";
    sp20 +:+ more_information ReceiveOnnxModel;
    sp20 ].

(** The advisory is a plain literal, not an f-string: its braces are
    printed as they stand. *)
Definition msg_advisory : string :=
  " " +:+ Py.nl
    +:+ " The received model has an opset {opset}. Though this opset is supported "
    +:+ sp16
    +:+ "we recommend upgrading the model to opset {build.MINIMUM_ONNX_OPSET}".

Definition msg_opset (opset : Z) : string :=
  Py.lines [
    "";
    sp12 +:+ "The received model has an opset " +:+ pretty opset
         +:+ ". Opset < 11 is not supported. Please";
    sp12 +:+ "try upgrading the model to opset 13.";
    sp12 +:+ more_information ReceiveOnnxModel;
    sp12 ].

Definition msg_receive_failed : string :=
  Py.lines [
    "";
    sp12 +:+ "Unable to process ONNX Model. We recommend that you verify the source of the model.";
    sp12 +:+ "Any optimizations performed on the model could result in an error.";
    sp12 +:+ more_information ReceiveOnnxModel;
    sp12 ].

(** [isinstance(dimension, int)]: [dim_value] is an int64 field. *)
Definition isinstance_int (dimension : Z) : bool := true.

(** [re.search(r"\d+", opset_str).group()], then [int] *)
Definition search_opset (opset_str : string) : M Z :=
  match Py.re_search_digits opset_str with
  | Some group => ret (Py.int group)
  | None =>
      raise (AttributeError "'NoneType' object has no attribute 'group'")
  end.

Definition input_shapes_of (m : ModelProto) : list (list Z) :=
  map (fun _input => map dim_value (vi_dim _input)) (graph_input m).

Definition check_dynamic_shapes (input_shapes : list (list Z)) : M unit :=
  for_ input_shapes (fun input =>
    for_ input (fun dimension =>
      if (dimension <? 1) || negb (isinstance_int dimension)
      then raise (GroqitStageError msg_dynamic)
      else ret tt)).

Definition check_opset (opset : Z) : M unit :=
  if (opset <? DEFAULT_ONNX_OPSET E) && (opset >=? MINIMUM_ONNX_OPSET E)
  then print msg_advisory
  else if opset <? MINIMUM_ONNX_OPSET E
  then raise (GroqitStageError (msg_opset opset))
  else ret tt.

Definition ReceiveOnnxModel_fire : M State :=
  m <- gets model ;;
  match m with
  | PyStr path =>
      if negb (Py.endswith path ".onnx") then
        raise (GroqitStageError (msg_receive_path path))
      else
        ins <- gets inputs ;;
        let dummy_inputs := Py.values ins in
        let dummy_input_names := Py.keys ins in
        modify (set_inputs
                  (Py.of_pairs (Py.zip dummy_input_names dummy_inputs))) ;;
        model <- onnx_load path ;;
        let opset_str := opset_import_str model in
        opset <- search_opset opset_str ;;
        let input_shapes := input_shapes_of model in
        check_dynamic_shapes input_shapes ;;
        check_opset opset ;;
        base <- gets base_onnx_file ;;
        shutil_move path base ;;
        ins <- gets inputs ;;
        original <- gets original_inputs_file ;;
        save_inputs [ins] original ;;
        base <- gets base_onnx_file ;;
        exported <- _check_model base
                      (Py.tab +:+ "Success receiving ONNX Model")
                      (Py.tab +:+ "Failed receiving ONNX Model") ;;
        modify (set_info (set_base_onnx_exported exported)) ;;
        (if exported then
           base <- gets base_onnx_file ;;
           modify (set_intermediate_results [base])
         else
           raise (GroqitStageError msg_receive_failed)) ;;
        gets (fun s => s)
  | _ => raise (GroqitStageError (msg_receive_type m))
  end.

(** *** ExportPytorchModel *)

Definition msg_export_type (m : PyObject) : string :=
  Py.lines [
    "";
    sp12 +:+ "The current stage (ExportPytorchModel) is only compatible with";
    sp12 +:+ "models of type torch.nn.Module or torch.jit.ScriptModule, however";
    sp12 +:+ "the stage received a model of type " +:+ type_repr m +:+ ".";
    sp12 ].

Definition msg_input_name (inp : string) (all_args : list string) : string :=
  Py.lines [
    "";
    sp20 +:+ "Input name " +:+ inp
         +:+ " not found in the model's forward method. Available";
    sp20 +:+ "inputs are: " +:+ Py.repr_list all_args +:+ Py.dquote;
    sp20 ].

Definition msg_export_failed : string :=
  Py.lines [
    "";
    sp12 +:+ "Unable to export model to ONNX using Torch's ONNX exporter.";
    sp12 +:+ "We recommend that you modify your model until it is";
    sp12 +:+ "compatible with this third party software, then re-run groqit().";
    sp12 +:+ more_information ExportPytorchModel;
    sp12 ].

(** The first loop of the [torch.nn.Module] branch. *)
Definition check_input_names (user_provided_args all_args : list string)
  : M unit :=
  for_ user_provided_args (fun inp =>
    if negb (Py.mem inp all_args)
    then raise (ValueError (msg_input_name inp all_args))
    else ret tt).

(** The second loop: one step appends to [inputs] and [input_names]. *)
Definition positional_step (ins : Py.dict PyValue)
    (acc : list PyValue * list string) (arg : string)
  : list PyValue * list string :=
  let '(inputs, input_names) := acc in
  let inputs :=
    if Py.mem arg (Py.keys ins)
    then inputs ++ [match Py.get ins arg with
                    | Some v => v
                    | None => None
                    end]
    else inputs ++ [None] in
  (inputs, input_names ++ [arg]).

Definition positional (ins : Py.dict PyValue) (all_args : list string)
  : list PyValue * list string :=
  fold_left (positional_step ins) all_args ([], []).

(** [torch.onnx.export(model, args, f, input_names=..., ...)] *)
Definition torch_onnx_export_call (m : PyObject) (args : list PyValue)
    (f : string) (input_names : list string) (opset_version : Z) : M unit :=
  emit (EvTorchOnnxExport m args f input_names ["output"] opset_version) ;;
  written <- outcome "torch.onnx.export"
               (torch_onnx_export E m args input_names opset_version) ;;
  match written with
  | Some c => write_file f c
  | None => ret tt
  end.

Definition export_tail (m : PyObject) (dummy_inputs : list PyValue)
    (dummy_input_names : list string) : M State :=
  modify (set_info (set_opset (DEFAULT_ONNX_OPSET E))) ;;
  base <- gets base_onnx_file ;;
  opset_version <- gets (fun s => opset (info s)) ;;
  torch_onnx_export_call m dummy_inputs base dummy_input_names
    (match opset_version with Some v => v | None => 0 end) ;;
  modify (set_inputs
            (Py.of_pairs (Py.zip dummy_input_names dummy_inputs))) ;;
  ins <- gets inputs ;;
  original <- gets original_inputs_file ;;
  save_inputs [ins] original ;;
  base <- gets base_onnx_file ;;
  exported <- _check_model base
                (Py.tab +:+ "Success exporting model to ONNX")
                (Py.tab +:+ "Failed exporting model to ONNX") ;;
  modify (set_info (set_base_onnx_exported exported)) ;;
  (if exported then
     base <- gets base_onnx_file ;;
     modify (set_intermediate_results [base])
   else
     raise (GroqitStageError msg_export_failed)) ;;
  gets (fun s => s).

Definition ExportPytorchModel_fire : M State :=
  m <- gets model ;;
  match m with
  | ScriptModule _ _ =>
      ins <- gets inputs ;;
      let dummy_inputs := Py.values ins in
      let dummy_input_names := Py.keys ins in
      export_tail m dummy_inputs dummy_input_names
  | TorchModule _ forward_params =>
      let all_args := forward_params in
      ins <- gets inputs ;;
      let user_provided_args := Py.keys ins in
      check_input_names user_provided_args all_args ;;
      let '(inputs, input_names) := positional ins all_args in
      let dummy_inputs := inputs in
      let dummy_input_names := input_names in
      export_tail m dummy_inputs dummy_input_names
  | _ => raise (GroqitStageError (msg_export_type m))
  end.

(** *** OptimizeOnnxModel *)

Definition msg_optimize_failed : string :=
  Py.lines [
    "";
    sp12 +:+ "Unable to optimize ONNX file using ONNX runtime.";
    sp12 +:+ "We recommend that you modify your model until it is";
    sp12 +:+ "compatible with this third party software, then re-run groqit().";
    sp12 +:+ more_information OptimizeOnnxModel;
    sp12 ].

(** [onnxruntime.InferenceSession(input_onnx, session_options)] with
    [session_options.optimized_model_filepath] set. *)
Definition onnxruntime_InferenceSession (input_onnx : string)
    (optimized_model_filepath : string) : M unit :=
  emit (EvInferenceSession input_onnx optimized_model_filepath) ;;
  c <- read_file input_onnx ;;
  written <- outcome "onnxruntime.InferenceSession" (ort_optimize E c) ;;
  match written with
  | Some c' => write_file optimized_model_filepath c'
  | None => ret tt
  end.

Definition OptimizeOnnxModel_fire : M State :=
  results <- gets intermediate_results ;;
  input_onnx <- getitem0 results ;;
  optimized_model_filepath <- gets opt_onnx_file ;;
  onnxruntime_InferenceSession input_onnx optimized_model_filepath ;;
  opt <- gets opt_onnx_file ;;
  exported <- _check_model opt
                (Py.tab +:+ "Success optimizing ONNX model")
                (Py.tab +:+ "Failed optimizing ONNX model") ;;
  modify (set_info (set_opt_onnx_exported exported)) ;;
  (if exported then
     opt <- gets opt_onnx_file ;;
     modify (set_intermediate_results [opt])
   else
     raise (GroqitStageError msg_optimize_failed)) ;;
  gets (fun s => s).

(** *** CheckOnnxCompatibility *)

Definition msg_unsupported (ops : string) : string :=
  Py.lines [
    "";
    sp12 +:+ "You model contains ONNX operation(s) that are not supported by Groq Compiler:";
    sp12 +:+ "**" +:+ ops +:+ "**";
    sp12 +:+ "Please replace these operation(s) in your model or contact";
    sp12 +:+ "sales@groq.com to request improved operation support in Groq Compiler.";
    sp12 ].

(** [sdk.check_dependencies(require_devtools=True,
    exception_type=exp.GroqitStageError)] *)
Definition sdk_check_dependencies (require_devtools : bool) : M unit :=
  emit (EvCheckDependencies require_devtools) ;;
  match check_dependencies E require_devtools with
  | None => ret tt
  | Some msg => raise (GroqitStageError msg)
  end.

(** [onnx_helpers.check_ops(input_onnx, use_sdk)] *)
Definition onnx_helpers_check_ops (input_onnx : string) (with_sdk : bool)
  : M (list string * list string) :=
  emit (EvCheckOps input_onnx with_sdk) ;;
  c <- read_file input_onnx ;;
  outcome "onnx_helpers.check_ops" (check_ops E c with_sdk).

Definition CheckOnnxCompatibility_fire : M State :=
  sdk_check_dependencies true ;;
  results <- gets intermediate_results ;;
  input_onnx <- getitem0 results ;;
  with_sdk <- gets use_sdk ;;
  reported <- onnx_helpers_check_ops input_onnx with_sdk ;;
  let '(ops, unsupported) := reported in
  modify (set_info (set_opt_onnx_ops ops unsupported)) ;;
  print ("Model has " +:+ pretty (length unsupported)
           +:+ " unsupported ops") ;;
  let all_ops_supported :=
    (length unsupported =? 0)%nat && negb (length ops =? 0)%nat in
  modify (set_info (set_opt_onnx_all_ops_supported all_ops_supported)) ;;
  (if negb all_ops_supported then
     let ops := Py.join ", " unsupported in
     raise (GroqitStageError (msg_unsupported ops))
   else ret tt) ;;
  gets (fun s => s).

(** *** ConvertOnnxToFp16 *)

Definition msg_convert_failed : string :=
  Py.lines [
    "";
    sp12 +:+ "Attempted to use onnxmltools, a third party library, to convert your";
    sp12 +:+ "model to the float16 datatype, however this operation was not successful.";
    sp12 +:+ more_information ConvertOnnxToFp16;
    sp12 ].

(** [onnxmltools.utils.float16_converter.convert_float_to_float16] *)
Definition float16_converter (input_onnx : string) (fp32_model : ModelProto)
  : M ModelProto :=
  emit (EvConvertFloat16 input_onnx) ;;
  outcome "onnxmltools.convert_float_to_float16"
    (convert_float_to_float16 E fp32_model).

Definition ConvertOnnxToFp16_fire : M State :=
  results <- gets intermediate_results ;;
  input_onnx <- getitem0 results ;;
  fp32_model <- onnx_load input_onnx ;;
  fp16_model <- float16_converter input_onnx fp32_model ;;
  output_path <- gets converted_onnx_file ;;
  save_model fp16_model output_path ;;
  converted <- gets converted_onnx_file ;;
  exported <- _check_model converted
                (Py.tab +:+ "Success converting ONNX model to fp16")
                (Py.tab +:+ "Failed converting ONNX model to fp16") ;;
  modify (set_info (set_converted_onnx_exported exported)) ;;
  (if exported then
     modify (set_intermediate_results [output_path])
   else
     raise (GroqitStageError msg_convert_failed)) ;;
  gets (fun s => s).

(** *** The stage interface *)

Definition fire (s : Stage) : M State :=
  match s with
  | ReceiveOnnxModel => ReceiveOnnxModel_fire
  | ExportPytorchModel => ExportPytorchModel_fire
  | OptimizeOnnxModel => OptimizeOnnxModel_fire
  | CheckOnnxCompatibility => CheckOnnxCompatibility_fire
  | ConvertOnnxToFp16 => ConvertOnnxToFp16_fire
  end.

End ExportStages.

(** ** Specification vocabulary *)

(** The weakest precondition of a computation for a normal and an
    exceptional postcondition. *)
Definition wp {A} (m : M A) (Q : A -> World -> Prop)
    (X : Exception -> World -> Prop) (w : World) : Prop :=
  match m w with
  | (Return a, w') => Q a w'
  | (Raise e, w') => X e w'
  end.

(** The world after some more events have been logged. *)
Definition logged (w : World) (t : list Event) : World :=
  mkWorld (state w) (fs w) (trace w ++ t).

(** The artifact path slot a stage produces its file at, for the stages
    that produce one. *)
Definition artifact_slot (s : Stage) : option (State -> string) :=
  match s with
  | ReceiveOnnxModel => Some base_onnx_file
  | ExportPytorchModel => Some base_onnx_file
  | OptimizeOnnxModel => Some opt_onnx_file
  | CheckOnnxCompatibility => None
  | ConvertOnnxToFp16 => Some converted_onnx_file
  end.

(** The paths whose file a stage may create, overwrite or move away. *)
Definition write_set (s : Stage) (st : State) : list string :=
  match s with
  | ReceiveOnnxModel =>
      match model st with
      | PyStr path => [path; base_onnx_file st; original_inputs_file st]
      | _ => []
      end
  | ExportPytorchModel => [base_onnx_file st; original_inputs_file st]
  | OptimizeOnnxModel => [opt_onnx_file st]
  | CheckOnnxCompatibility => []
  | ConvertOnnxToFp16 => [converted_onnx_file st]
  end.

(** [info_frame s i i']: [i'] differs from [i] at most in the info fields
    that stage [s] owns. *)
Definition info_frame (s : Stage) (i i' : BuildInfo) : Prop :=
  match s with
  | ReceiveOnnxModel =>
      exists b, i' = mkBuildInfo b (opset i) (opt_onnx_exported i)
                       (opt_onnx_ops i) (opt_onnx_unsupported_ops i)
                       (opt_onnx_all_ops_supported i)
                       (converted_onnx_exported i)
  | ExportPytorchModel =>
      exists b v, i' = mkBuildInfo b v (opt_onnx_exported i)
                         (opt_onnx_ops i) (opt_onnx_unsupported_ops i)
                         (opt_onnx_all_ops_supported i)
                         (converted_onnx_exported i)
  | OptimizeOnnxModel =>
      exists b, i' = mkBuildInfo (base_onnx_exported i) (opset i) b
                       (opt_onnx_ops i) (opt_onnx_unsupported_ops i)
                       (opt_onnx_all_ops_supported i)
                       (converted_onnx_exported i)
  | CheckOnnxCompatibility =>
      exists ops unsupported b,
        i' = mkBuildInfo (base_onnx_exported i) (opset i)
               (opt_onnx_exported i) ops unsupported b
               (converted_onnx_exported i)
  | ConvertOnnxToFp16 =>
      exists b, i' = mkBuildInfo (base_onnx_exported i) (opset i)
                       (opt_onnx_exported i) (opt_onnx_ops i)
                       (opt_onnx_unsupported_ops i)
                       (opt_onnx_all_ops_supported i) b
  end.

(** [state_frame s st st']: everything but [inputs], [intermediate_results]
    and the info fields of stage [s] is the same in [st'] as in [st]. *)
Definition state_frame (s : Stage) (st st' : State) : Prop :=
  model st' = model st
  /\ base_onnx_file st' = base_onnx_file st
  /\ original_inputs_file st' = original_inputs_file st
  /\ opt_onnx_file st' = opt_onnx_file st
  /\ converted_onnx_file st' = converted_onnx_file st
  /\ use_sdk st' = use_sdk st
  /\ info_frame s (info st) (info st').

(** [fs_frame W fs1 fs2]: the two file systems agree outside of [W]. *)
Definition fs_frame (W : list string) (fs1 fs2 : gmap string File) : Prop :=
  forall p : string, ~ In p W -> fs2 !! p = fs1 !! p.

(** The frame of a stage: what one call of [fire] may have touched, whether
    it returned or raised. *)
Definition stage_frame (s : Stage) (w0 w : World) : Prop :=
  state_frame s (state w0) (state w)
  /\ fs_frame (write_set s (state w0)) (fs w0) (fs w)
  /\ exists t, trace w = trace w0 ++ t.

(** The operator-set version a model declares, as the stage reads it. *)
Definition declared_opset (m : ModelProto) : option Z :=
  match Py.re_search_digits (opset_import_str m) with
  | Some group => Some (Py.int group)
  | None => None
  end.


Definition dynamic_shapes (m : ModelProto) : Prop :=
  exists i d, In i (graph_input m) /\ In d (vi_dim i) /\ dim_value d < 1.

(** Whether the file at [path] exists and passes the structural checker. *)
Definition passes_checker (E : Env) (files : gmap string File)
    (path : string) : bool :=
  match files !! path with
  | Some c => match onnx_checker E c with None => true | Some _ => false end
  | None => false
  end.

(** What [_check_model] prints. *)
Definition check_model_log (E : Env) (files : gmap string File)
    (path success_message fail_message : string) : list Event :=
  match files !! path with
  | Some c =>
      match onnx_checker E c with
      | None =>
          [EvPrint success_message;
           EvPrint (Py.tab +:+ "Successfully checked onnx file")]
      | Some e =>
          [EvPrint success_message;
           EvPrint (Py.tab +:+ "Error while checking generated ONNX file");
           EvPrint e]
      end
  | None => [EvPrint fail_message]
  end.

(** The positional value the export receives for a declared parameter. *)
Definition positional_value (ins : Py.dict PyValue) (arg : string) : PyValue :=
  match Py.get ins arg with
  | Some v => v
  | None => None
  end.

(** Whether some declared input dimension is below 1. *)
Definition has_dynamic (input_shapes : list (list Z)) : bool :=
  existsb (existsb (fun dimension => dimension <? 1)) input_shapes.

(** The first user-provided name that the forward signature does not
    declare. *)
Definition first_unknown (user_provided_args all_args : list string)
  : option string :=
  List.find (fun inp => negb (Py.mem inp all_args)) user_provided_args.

(** What holds when [fire] returns [st'] in world [w'], having started in
    [w0]: the stage stayed within its frame, and a stage that produces an
    artifact has made it the only current result. *)
Definition stage_returned (E : Env) (s : Stage) (w0 : World)
    (st' : State) (w' : World) : Prop :=
  st' = state w'
  /\ stage_frame s w0 w'
  /\ match artifact_slot s with
     | Some slot =>
         intermediate_results (state w') = [slot (state w0)]
         /\ passes_checker E (fs w') (slot (state w0)) = true
     | None =>
         intermediate_results (state w') = intermediate_results (state w0)
         /\ inputs (state w') = inputs (state w0)
     end.

(** What holds when [fire] raises in world [w']. *)
Definition stage_raised (s : Stage) (w0 : World) (w' : World) : Prop :=
  stage_frame s w0 w'
  /\ intermediate_results (state w') = intermediate_results (state w0).

(** [emits w w' e]: event [e] is among those logged between [w] and [w']. *)
Definition emits (w w' : World) (e : Event) : Prop :=
  exists t, trace w' = trace w ++ t /\ In e t.

(** The call of the export transformation, among the events. *)
Definition is_export (e : Event) : bool :=
  match e with
  | EvTorchOnnxExport _ _ _ _ _ _ => true
  | _ => false
  end.

(** [exported_with E w w' m args input_names]: between [w] and [w'] the
    exporter has been called, as the first event and only once, on model
    [m] with the positional values [args] and the input names
    [input_names]. *)
Definition exported_with (E : Env) (w w' : World) (m : PyObject)
    (args : list PyValue) (input_names : list string) : Prop :=
  exists rest,
    trace w' = trace w
               ++ EvTorchOnnxExport m args (base_onnx_file (state w))
                    input_names ["output"] (DEFAULT_ONNX_OPSET E) :: rest
    /\ forallb (fun e => negb (is_export e)) rest = true.

(** ** A concrete build environment *)

Module Examples.

Definition ex_checker (c : File) : option string :=
  match c with
  | OnnxFile m =>
      if existsb (String.eqb "") (graph_node m)
      then Some "Field 'op_type' of 'node' is required to be non-empty."
      else None
  | _ => Some "Unable to parse proto from file."
  end.

Definition ex_opset_str (v : Z) : string :=
  "[version: " +:+ pretty v +:+ Py.nl +:+ "]".

Definition ex_exported (names : list string) (v : Z) : ModelProto :=
  mkModelProto (ex_opset_str v)
    (map (fun n => mkValueInfo n [DimValue 1; DimValue 3]) names)
    ["Conv"; "Relu"].

Definition ex_check_ops (c : option File) (with_sdk : bool)
  : Outcome (list string * list string) :=
  match c with
  | Some (OnnxFile m) =>
      Done (graph_node m,
            filter (fun o => String.eqb o "Einsum") (graph_node m))
  | _ => Failed "cannot read the model"
  end.

Definition ex_optimize (c : option File) : Outcome (option File) :=
  match c with
  | Some (OnnxFile m) => Done (Some (OnnxFile m))
  | _ => Failed "no such model"
  end.

(** An installation with the SDK in place ... *)
Definition ex_env : Env :=
  mkEnv 13 11 (fun _ => "log.txt") ex_checker
    (fun _ _ names v => Done (Some (OnnxFile (ex_exported names v))))
    ex_optimize
    (fun m => Done m)
    (fun _ => None)
    ex_check_ops.

(** ... and one without. *)
Definition ex_env_no_sdk : Env :=
  mkEnv 13 11 (fun _ => "log.txt") ex_checker
    (fun _ _ names v => Done (Some (OnnxFile (ex_exported names v))))
    ex_optimize
    (fun m => Done m)
    (fun _ => Some "GroqWare Suite not found")
    ex_check_ops.

Definition ex_info : BuildInfo :=
  mkBuildInfo None None None None None None None.

Definition ex_tensor : Tensor := mkTensor float32 [1; 3; 224; 224] [].

Definition ex_state (m : PyObject) (ins : Py.dict PyValue)
    (results : list string) : State :=
  mkState m ins "build/m-base.onnx" "build/inputs_original.npy"
          "build/m-opt.onnx" "build/m-f16.onnx" results ex_info true.

(** An ONNX model with one input of shape [d, 3, 224, 224], declaring
    opset [v] and using the operators [ops]. *)
Definition ex_model (v d : Z) (ops : list string) : ModelProto :=
  mkModelProto (ex_opset_str v)
    [mkValueInfo "x" [DimValue d; DimValue 3; DimValue 224; DimValue 224]]
    ops.

(** A build that is handed the file m.onnx. *)
Definition ex_receive (v d : Z) (ops : list string) : World :=
  mkWorld (ex_state (PyStr "m.onnx") [("x", Some ex_tensor)] [])
          (<["m.onnx" := OnnxFile (ex_model v d ops)]> ∅) [].

(** A build that is handed a PyTorch module. *)
Definition ex_export (m : PyObject) (ins : Py.dict PyValue) : World :=
  mkWorld (ex_state m ins []) ∅ [].

(** A build whose frontier is the base artifact. *)
Definition ex_after_base (ops : list string) : World :=
  mkWorld (ex_state (PyStr "m.onnx") [("x", Some ex_tensor)]
                    ["build/m-base.onnx"])
          (<["build/m-base.onnx" := OnnxFile (ex_model 13 1 ops)]> ∅) [].

End Examples.

(** ** The stage identities and further vocabulary *)

(** [unique_name] and [monitor_message], as each stage's [__init__] hands
    them to [GroqitStage]. *)
Definition unique_name (s : Stage) : string :=
  match s with
  | ReceiveOnnxModel => "receive_onnx"
  | ExportPytorchModel => "export_pytorch"
  | OptimizeOnnxModel => "optimize_onnx"
  | CheckOnnxCompatibility => "check_compatibility"
  | ConvertOnnxToFp16 => "fp16_conversion"
  end.

Definition monitor_message (s : Stage) : string :=
  match s with
  | ReceiveOnnxModel => "Receiving ONNX Model"
  | ExportPytorchModel => "Exporting PyTorch to ONNX"
  | OptimizeOnnxModel => "Optimizing ONNX file"
  | CheckOnnxCompatibility => "Checking for Op support"
  | ConvertOnnxToFp16 => "Converting to FP16"
  end.

(** The error a stage raises when [_check_model] rejects its artifact. *)
Definition postcondition_error (E : Env) (s : Stage) : option Exception :=
  match s with
  | ReceiveOnnxModel => Some (GroqitStageError (msg_receive_failed E))
  | ExportPytorchModel => Some (GroqitStageError (msg_export_failed E))
  | OptimizeOnnxModel => Some (GroqitStageError (msg_optimize_failed E))
  | CheckOnnxCompatibility => None
  | ConvertOnnxToFp16 => Some (GroqitStageError (msg_convert_failed E))
  end.

(** The info flag in which a stage records the verdict of [_check_model]. *)
Definition exported_flag (s : Stage) (i : BuildInfo) : option bool :=
  match s with
  | ReceiveOnnxModel => base_onnx_exported i
  | ExportPytorchModel => base_onnx_exported i
  | OptimizeOnnxModel => opt_onnx_exported i
  | CheckOnnxCompatibility => None
  | ConvertOnnxToFp16 => converted_onnx_exported i
  end.

(** Whether an exception comes from inside a collaborator. *)
Definition is_external (e : Exception) : bool :=
  match e with
  | ExternalError _ _ => true
  | _ => false
  end.

(** Whether [state.model] is a string ending in .onnx. *)
Definition is_onnx_path (o : PyObject) : bool :=
  match o with
  | PyStr path => Py.endswith path ".onnx"
  | _ => false
  end.

(** The stages that read [state.intermediate_results[0]]. *)
Definition consumes_artifact (s : Stage) : bool :=
  match s with
  | OptimizeOnnxModel | CheckOnnxCompatibility | ConvertOnnxToFp16 => true
  | _ => false
  end.


(** ** setup.py *)

(** [s.split(sep)] for a one-character separator. *)
Fixpoint split (sep : ascii) (s : string) : list string :=
  match s with
  | EmptyString => [""]
  | String c r =>
      if Ascii.eqb c sep then "" :: split sep r
      else match split sep r with
           | h :: t => String c h :: t
           | [] => [String c ""]
           end
  end.

(** [sep in s] *)
Fixpoint has_char (sep : ascii) (s : string) : bool :=
  match s with
  | EmptyString => false
  | String c r => Ascii.eqb c sep || has_char sep r
  end.

(** The version of the package: the content of groqflow/version.py, split
    at the double quotes, second piece. *)
Definition read_version (content : string) : Result string :=
  match split "034"%char content with
  | _ :: version :: _ => Return version
  | _ => Raise (IndexError "list index out of range")
  end.

(** ** Corner cases *)

(** A model that imports no operator set, with a symbolic batch
    dimension. *)
Definition ex_model_without_opset : ModelProto :=
  mkModelProto "[]"
    [mkValueInfo "x" [DimParam "batch"; DimValue 3; DimValue 224;
                      DimValue 224]]
    ["Conv"; "Relu"].


(** A build that is handed the file at [path], holding model [m]. *)
Definition ex_receive_at (path : string) (m : ModelProto) : World :=
  mkWorld (Examples.ex_state (PyStr path)
             [("x", Some Examples.ex_tensor)] [])
          (<[path := OnnxFile m]> ∅) [].

(** * Properties *)

(** ** Python strings and dicts *)

Module PyFacts.

Lemma append_nil_l (a : string) : "" +:+ a = a.
Proof. reflexivity. Qed.

Lemma append_cons (x : ascii) (a b : string) :
  String x a +:+ b = String x (a +:+ b).
Proof. reflexivity. Qed.

Lemma append_assoc (a b c : string) : (a +:+ b) +:+ c = a +:+ (b +:+ c).
Proof.
  induction a as [|x a IH]; [reflexivity|].
  now rewrite !append_cons, IH.
Qed.

Lemma append_nil_r (a : string) : a +:+ "" = a.
Proof.
  induction a as [|x a IH]; [reflexivity|]. now rewrite append_cons, IH.
Qed.

Lemma contains_refl (s : string) : Py.contains s s.
Proof. exists "", "". now rewrite append_nil_l, append_nil_r. Qed.

Lemma contains_append_l (sub a b : string) :
  Py.contains sub a -> Py.contains sub (a +:+ b).
Proof.
  intros (pre & post & ->). exists pre, (post +:+ b).
  now rewrite !append_assoc.
Qed.

Lemma contains_append_r (sub a b : string) :
  Py.contains sub b -> Py.contains sub (a +:+ b).
Proof.
  intros (pre & post & ->). exists (a +:+ pre), post.
  now rewrite !append_assoc.
Qed.

Lemma contains_trans (a b c : string) :
  Py.contains a b -> Py.contains b c -> Py.contains a c.
Proof.
  intros (p1 & q1 & ->) (p2 & q2 & ->).
  exists (p2 +:+ p1), (q1 +:+ q2). now rewrite !append_assoc.
Qed.

(** Every element of a joined list shows in the result. *)
Lemma contains_join (sep x : string) (l : list string) :
  In x l -> Py.contains x (Py.join sep l).
Proof.
  unfold Py.join. induction l as [|y l IH]; intros Hin; [destruct Hin|].
  destruct l as [|z l].
  - destruct Hin as [->|[]]. apply contains_refl.
  - change (String.concat sep (y :: z :: l))
      with (y +:+ sep +:+ String.concat sep (z :: l)).
    destruct Hin as [->|Hin].
    + apply contains_append_l, contains_refl.
    + apply contains_append_r, contains_append_r, IH, Hin.
Qed.

Lemma contains_lines (x : string) (l : list string) :
  In x l -> Py.contains x (Py.lines l).
Proof. apply contains_join. Qed.

Lemma contains_repr_list (x : string) (l : list string) :
  In x l -> Py.contains x (Py.repr_list l).
Proof.
  intros Hin. unfold Py.repr_list.
  apply contains_append_r, contains_append_l.
  apply contains_trans with (Py.repr_str x).
  - unfold Py.repr_str. apply contains_append_r, contains_append_l,
      contains_refl.
  - apply contains_join, in_map, Hin.
Qed.

Lemma mem_In (k : string) (ks : list string) :
  Py.mem k ks = true <-> In k ks.
Proof.
  unfold Py.mem. rewrite existsb_exists. split.
  - intros (x & Hx & Heq). apply String.eqb_eq in Heq. now subst.
  - intros Hin. exists k. split; [assumption | apply String.eqb_refl].
Qed.

Lemma mem_false (k : string) (ks : list string) :
  Py.mem k ks = false <-> ~ In k ks.
Proof.
  rewrite <- mem_In. destruct (Py.mem k ks); split; congruence.
Qed.

Section Dict.
Context {V : Type}.
Implicit Types (d : Py.dict V) (k : string) (v : V).

Lemma get_Some_mem d k v :
  Py.get d k = Some v -> In k (Py.keys d).
Proof.
  induction d as [|[k' v'] d IH]; simpl; [discriminate|].
  destruct (String.eqb_spec k k'); [now left | right; auto].
Qed.

Lemma get_None_not_mem d k :
  Py.get d k = None <-> ~ In k (Py.keys d).
Proof.
  induction d as [|[k' v'] d IH]; simpl; [tauto|].
  destruct (String.eqb_spec k k') as [->|Hne].
  - split; [discriminate | intros H; exfalso; apply H; now left].
  - rewrite IH. split; [intros H [Heq|Hin]; [congruence|tauto] | tauto].
Qed.

Lemma setitem_fresh d k v :
  ~ In k (Py.keys d) -> Py.setitem d k v = d ++ [(k, v)].
Proof.
  induction d as [|[k' v'] d IH]; simpl; intros Hnin; [reflexivity|].
  destruct (String.eqb_spec k k') as [->|Hne]; [tauto|].
  rewrite IH; [reflexivity | tauto].
Qed.

Lemma of_pairs_acc (acc pairs : list (string * V)) :
  List.NoDup (map fst (acc ++ pairs)) ->
  fold_left (fun d kv => Py.setitem d (fst kv) (snd kv)) pairs acc
  = acc ++ pairs.
Proof.
  revert acc. induction pairs as [|[k v] pairs IH]; intros acc Hnd; simpl.
  - now rewrite app_nil_r.
  - rewrite setitem_fresh.
    + rewrite IH; rewrite <- app_assoc; [reflexivity | exact Hnd].
    + rewrite map_app in Hnd. simpl in Hnd.
      apply NoDup_remove_2 in Hnd. intros Hin. apply Hnd.
      apply in_or_app. now left.
Qed.

(** Rebuilding a dict from its own keys and values gives it back. *)
Lemma of_pairs_zip_id d :
  List.NoDup (Py.keys d) ->
  Py.of_pairs (Py.zip (Py.keys d) (Py.values d)) = d.
Proof.
  intros Hnd. unfold Py.of_pairs, Py.zip, Py.keys, Py.values.
  assert (Hc : combine (map fst d) (map snd d) = d).
  { clear Hnd. induction d as [|[k v] d IH]; simpl; [|rewrite IH];
      reflexivity. }
  rewrite Hc. now rewrite of_pairs_acc.
Qed.
End Dict.

End PyFacts.

(** ** The weakest-precondition calculus *)

Section WP.
Context {A : Type}.
Implicit Types (Q : A -> World -> Prop) (X : Exception -> World -> Prop).

Lemma wp_ret (a : A) Q X w : Q a w -> wp (ret a) Q X w.
Proof. exact (fun H => H). Qed.

Lemma wp_raise e Q X w : X e w -> wp (raise e : M A) Q X w.
Proof. exact (fun H => H). Qed.

Lemma wp_bind {B} (m : M B) (k : B -> M A) Q X w :
  wp m (fun b w' => wp (k b) Q X w') X w -> wp (bind m k) Q X w.
Proof. unfold wp, bind. now destruct (m w) as [[b|e] w']. Qed.

Lemma wp_mono (m : M A) Q Q' X X' w :
  wp m Q X w ->
  (forall a w', Q a w' -> Q' a w') ->
  (forall e w', X e w' -> X' e w') ->
  wp m Q' X' w.
Proof. unfold wp. destruct (m w) as [[a|e] w']; auto. Qed.

Lemma wp_returns (m : M A) Q X w a w' :
  wp m Q X w -> m w = (Return a, w') -> Q a w'.
Proof. unfold wp. intros H Heq. now rewrite Heq in H. Qed.

Lemma wp_raises (m : M A) Q X w e w' :
  wp m Q X w -> m w = (Raise e, w') -> X e w'.
Proof. unfold wp. intros H Heq. now rewrite Heq in H. Qed.


(** A computation that cannot return under [wp] does raise. *)
Lemma wp_fails (m : M A) X w :
  wp m (fun _ _ => False) X w ->
  exists e w', m w = (Raise e, w') /\ X e w'.
Proof. unfold wp. destruct (m w) as [[a|e] w']; [tauto | eauto]. Qed.

Lemma wp_try (body : M A) (handler : string -> M A) Q X w :
  wp body Q
     (fun e w' =>
        match e with
        | ValidationError msg => wp (handler msg) Q X w'
        | _ => X e w'
        end) w ->
  wp (try_except_ValidationError body handler) Q X w.
Proof.
  unfold wp, try_except_ValidationError.
  destruct (body w) as [[a|e] w']; [auto|]. now destruct e.
Qed.

Lemma wp_outcome who (o : Outcome A) Q X w :
  match o with
  | Done a => Q a w
  | Failed msg => X (ExternalError who msg) w
  end ->
  wp (outcome who o) Q X w.
Proof. now destruct o. Qed.
End WP.

Section WPPrimitives.
Implicit Types (X : Exception -> World -> Prop) (w : World).

Lemma wp_gets {A} (f : State -> A) Q X w :
  Q (f (state w)) w -> wp (gets f) Q X w.
Proof. exact (fun H => H). Qed.

Lemma wp_modify f (Q : unit -> World -> Prop) X w :
  Q tt (mkWorld (f (state w)) (fs w) (trace w)) -> wp (modify f) Q X w.
Proof. exact (fun H => H). Qed.

Lemma wp_emit e (Q : unit -> World -> Prop) X w :
  Q tt (mkWorld (state w) (fs w) (trace w ++ [e])) -> wp (emit e) Q X w.
Proof. exact (fun H => H). Qed.

Lemma wp_print text (Q : unit -> World -> Prop) X w :
  Q tt (mkWorld (state w) (fs w) (trace w ++ [EvPrint text])) ->
  wp (print text) Q X w.
Proof. exact (fun H => H). Qed.

Lemma wp_read_file path (Q : option File -> World -> Prop) X w :
  Q (fs w !! path) w -> wp (read_file path) Q X w.
Proof. exact (fun H => H). Qed.

Lemma wp_write_file path c (Q : unit -> World -> Prop) X w :
  Q tt (mkWorld (state w) (<[path := c]> (fs w)) (trace w)) ->
  wp (write_file path c) Q X w.
Proof. exact (fun H => H). Qed.

Lemma wp_remove_file path (Q : unit -> World -> Prop) X w :
  Q tt (mkWorld (state w) (delete path (fs w)) (trace w)) ->
  wp (remove_file path) Q X w.
Proof. exact (fun H => H). Qed.

Lemma wp_getitem0 l (Q : string -> World -> Prop) X w :
  match l with
  | x :: _ => Q x w
  | [] => X (IndexError "list index out of range") w
  end ->
  wp (getitem0 l) Q X w.
Proof. now destruct l. Qed.
End WPPrimitives.

(** Projections of the worlds and states that symbolic execution builds. *)
Ltac wp_simpl :=
  cbn [state fs trace logged negb andb orb
       model inputs base_onnx_file original_inputs_file opt_onnx_file
       converted_onnx_file intermediate_results info use_sdk
       set_inputs set_intermediate_results set_info].

(** One step of symbolic execution. *)
Ltac wp_step :=
  lazymatch goal with
  | |- wp (bind _ _) _ _ _ => apply wp_bind
  | |- wp (ret _) _ _ _ => apply wp_ret
  | |- wp (raise _) _ _ _ => apply wp_raise
  | |- wp (gets _) _ _ _ => apply wp_gets
  | |- wp (modify _) _ _ _ => apply wp_modify
  | |- wp (emit _) _ _ _ => apply wp_emit
  | |- wp (print _) _ _ _ => apply wp_print
  | |- wp (read_file _) _ _ _ => apply wp_read_file
  | |- wp (write_file _ _) _ _ _ => apply wp_write_file
  | |- wp (remove_file _) _ _ _ => apply wp_remove_file
  | |- wp (getitem0 _) _ _ _ => apply wp_getitem0
  | |- wp (outcome _ _) _ _ _ => apply wp_outcome
  | |- wp (try_except_ValidationError _ _) _ _ _ => apply wp_try
  end; wp_simpl.

Ltac wp_steps := repeat wp_step.

(** ** The building blocks of the stages *)

Section Blocks.
Context (E : Env).
Implicit Types (w : World) (X : Exception -> World -> Prop).

Lemma logged_logged w t1 t2 : logged (logged w t1) t2 = logged w (t1 ++ t2).
Proof. unfold logged. cbn. now rewrite <- app_assoc. Qed.

(** [_check_model] always returns: its verdict and what it prints. *)
Lemma check_model_run path success_message fail_message w :
  _check_model E path success_message fail_message w
  = (Return (passes_checker E (fs w) path),
     logged w (check_model_log E (fs w) path success_message fail_message)).
Proof.
  unfold _check_model, passes_checker, check_model_log, os_path_isfile,
    onnx_checker_check_model, try_except_ValidationError, bind, read_file,
    print, emit, ret, raise, logged.
  cbn. destruct (fs w !! path) as [c|] eqn:Hc; cbn; [|reflexivity].
  rewrite Hc. destruct (onnx_checker E c); cbn;
    now rewrite <- !app_assoc.
Qed.

Lemma wp_check_model path success_message fail_message
    (Q : bool -> World -> Prop) X w :
  Q (passes_checker E (fs w) path)
    (logged w (check_model_log E (fs w) path success_message fail_message))
  ->
  wp (_check_model E path success_message fail_message) Q X w.
Proof. unfold wp. now rewrite check_model_run. Qed.

(** The two nested loops over the declared input dimensions. *)
Lemma check_dimensions_run (input : list Z) w :
  for_ input (fun dimension =>
    if (dimension <? 1) || negb (isinstance_int dimension)
    then raise (GroqitStageError (msg_dynamic E))
    else ret tt) w
  = if existsb (fun dimension => dimension <? 1) input
    then (Raise (GroqitStageError (msg_dynamic E)), w)
    else (Return tt, w).
Proof.
  induction input as [|d input IH]; [reflexivity|].
  cbn [for_ existsb]. unfold bind at 1. unfold isinstance_int.
  rewrite orb_false_r. destruct (d <? 1); cbn; [reflexivity | apply IH].
Qed.

Lemma check_dynamic_shapes_run (input_shapes : list (list Z)) w :
  check_dynamic_shapes E input_shapes w
  = if has_dynamic input_shapes
    then (Raise (GroqitStageError (msg_dynamic E)), w)
    else (Return tt, w).
Proof.
  unfold check_dynamic_shapes, has_dynamic.
  induction input_shapes as [|input input_shapes IH]; [reflexivity|].
  cbn [for_ existsb]. unfold bind at 1. rewrite check_dimensions_run.
  destruct (existsb _ input); cbn; [reflexivity | apply IH].
Qed.

Lemma has_dynamic_true (m : ModelProto) :
  has_dynamic (input_shapes_of m) = true <-> dynamic_shapes m.
Proof.
  unfold has_dynamic, input_shapes_of, dynamic_shapes.
  rewrite existsb_exists. split.
  - intros (input & Hin & Hex). apply in_map_iff in Hin.
    destruct Hin as (i & <- & Hi). apply existsb_exists in Hex.
    destruct Hex as (z & Hz & Hlt). apply in_map_iff in Hz.
    destruct Hz as (d & <- & Hd). exists i, d. repeat split; auto. lia.
  - intros (i & d & Hi & Hd & Hlt).
    exists (map dim_value (vi_dim i)). split.
    + apply in_map_iff. eauto.
    + apply existsb_exists. exists (dim_value d). split.
      * now apply in_map.
      * lia.
Qed.


Lemma wp_check_dynamic_shapes input_shapes (Q : unit -> World -> Prop) X w :
  (if has_dynamic input_shapes
   then X (GroqitStageError (msg_dynamic E)) w
   else Q tt w) ->
  wp (check_dynamic_shapes E input_shapes) Q X w.
Proof.
  unfold wp. rewrite check_dynamic_shapes_run.
  now destruct (has_dynamic input_shapes).
Qed.

(** The loop over the user-provided names stops at the first one that
    the forward signature does not declare. *)
Lemma check_input_names_run user_provided_args all_args w :
  check_input_names user_provided_args all_args w
  = match first_unknown user_provided_args all_args with
    | Some inp => (Raise (ValueError (msg_input_name inp all_args)), w)
    | None => (Return tt, w)
    end.
Proof.
  unfold check_input_names, first_unknown.
  induction user_provided_args as [|inp l IH]; [reflexivity|].
  cbn [for_ List.find]. unfold bind at 1.
  destruct (negb (Py.mem inp all_args)); cbn; [reflexivity | apply IH].
Qed.

Lemma first_unknown_Some user_provided_args all_args inp :
  first_unknown user_provided_args all_args = Some inp ->
  In inp user_provided_args /\ ~ In inp all_args.
Proof.
  intros Hf. apply find_some in Hf. destruct Hf as [Hin Hmem].
  split; [assumption|]. apply PyFacts.mem_false.
  destruct (Py.mem inp all_args); [discriminate | reflexivity].
Qed.

Lemma first_unknown_None user_provided_args all_args :
  first_unknown user_provided_args all_args = None <->
  (forall inp, In inp user_provided_args -> In inp all_args).
Proof.
  split.
  - intros Hf inp Hin. pose proof (find_none _ _ Hf inp Hin) as Hn.
    apply PyFacts.mem_In. cbn in Hn.
    destruct (Py.mem inp all_args); [reflexivity | discriminate].
  - intros Hall. destruct (first_unknown _ _) as [inp|] eqn:Hf;
      [|reflexivity].
    apply first_unknown_Some in Hf. destruct Hf as [Hin Hnin].
    exfalso. auto.
Qed.

Lemma wp_check_input_names user_provided_args all_args
    (Q : unit -> World -> Prop) X w :
  match first_unknown user_provided_args all_args with
  | Some inp => X (ValueError (msg_input_name inp all_args)) w
  | None => Q tt w
  end ->
  wp (check_input_names user_provided_args all_args) Q X w.
Proof.
  unfold wp. rewrite check_input_names_run.
  now destruct (first_unknown user_provided_args all_args).
Qed.

(** The second loop yields one value per declared parameter. *)
Lemma positional_step_value ins acc arg :
  positional_step ins acc arg
  = (fst acc ++ [positional_value ins arg], snd acc ++ [arg]).
Proof.
  destruct acc as [vs ns]. unfold positional_step, positional_value. cbn.
  destruct (Py.mem arg (Py.keys ins)) eqn:Hmem; [reflexivity|].
  apply PyFacts.mem_false in Hmem.
  apply PyFacts.get_None_not_mem in Hmem. now rewrite Hmem.
Qed.

Lemma positional_acc ins all_args acc :
  fold_left (positional_step ins) all_args acc
  = (fst acc ++ map (positional_value ins) all_args, snd acc ++ all_args).
Proof.
  revert acc. induction all_args as [|arg l IH]; intros acc; cbn.
  - rewrite !app_nil_r. now destruct acc.
  - rewrite IH, positional_step_value. cbn. now rewrite <- !app_assoc.
Qed.

Lemma positional_map ins all_args :
  positional ins all_args = (map (positional_value ins) all_args, all_args).
Proof. unfold positional. now rewrite positional_acc. Qed.

End Blocks.

(** ** The frame of every stage *)

Ltac wp_call E :=
  lazymatch goal with
  | |- wp (_check_model _ _ _ _) _ _ _ => apply wp_check_model
  | |- wp (check_dynamic_shapes _ _) _ _ _ => apply wp_check_dynamic_shapes
  | |- wp (check_input_names _ _) _ _ _ => apply wp_check_input_names
  | |- wp (os_path_isfile _) _ _ _ => unfold os_path_isfile
  | |- wp (onnx_load _) _ _ _ => unfold onnx_load
  | |- wp (shutil_move _ _) _ _ _ => unfold shutil_move
  | |- wp (save_model _ _) _ _ _ => unfold save_model
  | |- wp (save_inputs _ _) _ _ _ => unfold save_inputs
  | |- wp (search_opset _) _ _ _ => unfold search_opset
  | |- wp (check_opset _ _) _ _ _ => unfold check_opset
  | |- wp (torch_onnx_export_call _ _ _ _ _ _) _ _ _ =>
      unfold torch_onnx_export_call
  | |- wp (onnxruntime_InferenceSession _ _ _) _ _ _ =>
      unfold onnxruntime_InferenceSession
  | |- wp (sdk_check_dependencies _ _) _ _ _ => unfold sdk_check_dependencies
  | |- wp (onnx_helpers_check_ops _ _ _) _ _ _ =>
      unfold onnx_helpers_check_ops
  | |- wp (float16_converter _ _ _) _ _ _ => unfold float16_converter
  end; wp_simpl.

(** Case analysis on what the program branches on. *)
Ltac wp_branch :=
  lazymatch goal with
  | |- wp (if ?b then _ else _) _ _ _ => destruct b eqn:?
  | |- wp (match ?x with _ => _ end) _ _ _ => destruct x eqn:?
  | |- match ?x with _ => _ end => destruct x eqn:?
  | |- if ?b then _ else _ => destruct b eqn:?
  end; wp_simpl.

Ltac wp_run E := repeat first [wp_step | wp_call E | wp_branch].

(** Closing a frame goal: the fields by computation, the files by lookups
    outside of the write set, the trace by reassociation. *)
Ltac solve_fs_frame :=
  let p := fresh "p" in
  let Hp := fresh "Hp" in
  intros p Hp; cbn in Hp;
  repeat first
    [ rewrite lookup_insert_ne by (let H := fresh in intros H; subst; tauto)
    | rewrite lookup_delete_ne by (let H := fresh in intros H; subst; tauto) ];
  reflexivity.

Ltac solve_trace :=
  first [ exists []; now rewrite app_nil_r
        | rewrite <- ?app_assoc; eexists; reflexivity ].

Ltac solve_info_frame :=
  unfold set_base_onnx_exported, set_opset, set_opt_onnx_exported,
    set_opt_onnx_ops, set_opt_onnx_all_ops_supported,
    set_converted_onnx_exported;
  match goal with
  | |- context [info (state ?w)] => destruct (info (state w))
  end;
  cbn; repeat eexists.

Ltac solve_frame :=
  unfold stage_returned, stage_raised, stage_frame, state_frame, fs_frame,
    info_frame, write_set, artifact_slot;
  cbn [state fs trace logged model inputs base_onnx_file original_inputs_file
       opt_onnx_file converted_onnx_file intermediate_results info use_sdk
       set_inputs set_intermediate_results set_info];
  repeat match goal with
         | H : model _ = _ |- _ => rewrite H
         end;
  repeat split;
  try reflexivity; try assumption;
  try solve [ solve_trace | solve_fs_frame | solve_info_frame ].

Section Frames.
Context (E : Env).

Lemma ReceiveOnnxModel_frame w :
  wp (ReceiveOnnxModel_fire E)
     (stage_returned E ReceiveOnnxModel w)
     (fun _ => stage_raised ReceiveOnnxModel w) w.
Proof.
  unfold ReceiveOnnxModel_fire. wp_run E; solve_frame.
Qed.

Lemma ExportPytorchModel_frame w :
  wp (ExportPytorchModel_fire E)
     (stage_returned E ExportPytorchModel w)
     (fun _ => stage_raised ExportPytorchModel w) w.
Proof.
  unfold ExportPytorchModel_fire, export_tail. wp_run E; solve_frame.
Qed.

Lemma OptimizeOnnxModel_frame w :
  wp (OptimizeOnnxModel_fire E)
     (stage_returned E OptimizeOnnxModel w)
     (fun _ => stage_raised OptimizeOnnxModel w) w.
Proof.
  unfold OptimizeOnnxModel_fire. wp_run E; solve_frame.
Qed.

Lemma CheckOnnxCompatibility_frame w :
  wp (CheckOnnxCompatibility_fire E)
     (stage_returned E CheckOnnxCompatibility w)
     (fun _ => stage_raised CheckOnnxCompatibility w) w.
Proof.
  unfold CheckOnnxCompatibility_fire. wp_run E; solve_frame.
Qed.

Lemma ConvertOnnxToFp16_frame w :
  wp (ConvertOnnxToFp16_fire E)
     (stage_returned E ConvertOnnxToFp16 w)
     (fun _ => stage_raised ConvertOnnxToFp16 w) w.
Proof.
  unfold ConvertOnnxToFp16_fire. wp_run E; solve_frame.
Qed.

(** Whatever the stage and the world it starts in. *)
Lemma fire_frame s w :
  wp (fire E s) (stage_returned E s w) (fun _ => stage_raised s w) w.
Proof.
  destruct s; cbn [fire];
    [ apply ReceiveOnnxModel_frame | apply ExportPytorchModel_frame
    | apply OptimizeOnnxModel_frame | apply CheckOnnxCompatibility_frame
    | apply ConvertOnnxToFp16_frame ].
Qed.

End Frames.

(** ** The artifact validator *)

Section Validator.
Context (E : Env).

(** C6: for every file path and every pair of messages [_check_model]
    returns a boolean and never raises: [False] when the path is not an
    existing file, [True] when the file exists and passes the structural
    checker, and [False], instead of the checker's exception, when the
    structural check fails.  It changes neither the build state nor any
    file. *)
Theorem check_model_total
    (onnx_file success_message fail_message : string) (w : World) :
  exists (b : bool) (w' : World),
    _check_model E onnx_file success_message fail_message w = (Return b, w')
    /\ state w' = state w
    /\ fs w' = fs w
    /\ b = match fs w !! onnx_file with
           | None => false
           | Some c =>
               match onnx_checker E c with
               | None => true
               | Some _ => false
               end
           end.
Proof.
  eexists _, _. rewrite check_model_run. split; [reflexivity|].
  repeat split.
Qed.

End Validator.

(** ** Frame and frontier of the stages *)

Section Stages.
Context (E : Env).

Lemma artifact_slot_frame s slot st st' :
  artifact_slot s = Some slot -> state_frame s st st' -> slot st' = slot st.
Proof.
  intros Hs (Hm & Hb & Ho & Hopt & Hc & Hu & Hi).
  destruct s; inversion Hs; subst; assumption.
Qed.

(** C7: a stage that produces an artifact and returns leaves
    [state.intermediate_results] equal to the one-element list holding the
    path of its own artifact slot, whatever the list held before; the file
    at that path has passed the validator. *)
Theorem artifact_stage_sets_single_result
    (s : Stage) (slot : State -> string) (w : World)
    (st' : State) (w' : World) :
  artifact_slot s = Some slot ->
  fire E s w = (Return st', w') ->
  intermediate_results st' = [slot (state w)]
  /\ length (intermediate_results st') = 1%nat
  /\ slot st' = slot (state w)
  /\ passes_checker E (fs w') (slot st') = true
  /\ st' = state w'.
Proof.
  intros Hslot Hrun.
  pose proof (wp_returns _ _ _ _ _ _ (fire_frame E s w) Hrun) as Hret.
  destruct Hret as (-> & (Hst & _) & Hart). rewrite Hslot in Hart.
  destruct Hart as [Hres Hpass].
  pose proof (artifact_slot_frame _ _ _ _ Hslot Hst) as Hsame.
  rewrite Hres, Hsame. repeat split; assumption.
Qed.


(** C9, as the stages have it: whether it returns or raises, a call of
    [fire] changes no file outside of the write set of its stage.  That is
    [opt_onnx_file] for [OptimizeOnnxModel], [converted_onnx_file] for
    [ConvertOnnxToFp16], nothing for [CheckOnnxCompatibility], and
    [base_onnx_file] with the reference-inputs file [original_inputs_file]
    for [ReceiveOnnxModel] and [ExportPytorchModel], the former also moving
    the source file away from the path in [state.model].  So the file at
    the artifact slot of another stage is left as it was whenever the path
    of that slot is none of the paths of the write set; the stages do not
    check that it is.  Of the build state the call changes nothing but
    [inputs], [intermediate_results] and the info fields the stage owns. *)
Theorem stage_stays_in_its_frame (s : Stage) (w : World) :
  fs_frame (write_set s (state w)) (fs w) (fs (snd (fire E s w)))
  /\ state_frame s (state w) (state (snd (fire E s w)))
  /\ (forall (other : Stage) (slot : State -> string),
         artifact_slot other = Some slot ->
         ~ In (slot (state w)) (write_set s (state w)) ->
         fs (snd (fire E s w)) !! slot (state w) = fs w !! slot (state w)).
Proof.
  pose proof (fire_frame E s w) as H. unfold wp in H.
  destruct (fire E s w) as [[st'|e] w']; cbn [snd].
  - destruct H as (_ & (Hst & Hfs & _) & _).
    split; [exact Hfs|]. split; [exact Hst|].
    intros other slot _ Hout. now apply Hfs.
  - destruct H as ((Hst & Hfs & _) & _).
    split; [exact Hfs|]. split; [exact Hst|].
    intros other slot _ Hout. now apply Hfs.
Qed.

End Stages.

(** ** Ingestion of a prebuilt ONNX file *)

Ltac wp_known :=
  match goal with
  | H : ?x = _ |- wp (match ?s with _ => _ end) _ _ _ =>
      match s with context [x] => rewrite H end
  | H : ?x = _ |- wp (if ?s then _ else _) _ _ _ =>
      match s with context [x] => rewrite H end
  | H : ?x = _ |- match ?s with _ => _ end =>
      match s with context [x] => rewrite H end
  | H : ?x = _ |- if ?s then _ else _ =>
      match s with context [x] => rewrite H end
  end; wp_simpl.

Ltac wp_go E := repeat first [wp_step | wp_call E | wp_known].

Section Receive.
Context (E : Env).


(** C1, as the stage has it: when the ONNX model that [state.model] names
    declares an input dimension below 1 (a symbolic dimension reads as 0),
    [ReceiveOnnxModel.fire] raises without having moved, written or created
    any file, called any collaborator, or touched [intermediate_results]
    and [info].  The error is a [GroqitStageError] whenever the rendered
    [opset_import] of the model holds a number, which the stage searches
    for before it looks at the shapes: the one about dynamic input
    dimensions when the path ends in .onnx, and for any model the one about
    the path when it does not. *)
Theorem receive_rejects_dynamic_shapes
    (w : World) (path : string) (m : ModelProto) :
  model (state w) = PyStr path ->
  fs w !! path = Some (OnnxFile m) ->
  dynamic_shapes m ->
  exists (e : Exception) (w' : World),
    fire E ReceiveOnnxModel w = (Raise e, w')
    /\ fs w' = fs w
    /\ trace w' = trace w
    /\ intermediate_results (state w') = intermediate_results (state w)
    /\ info (state w') = info (state w)
    /\ base_onnx_file (state w') = base_onnx_file (state w)
    /\ (Py.endswith path ".onnx" = false ->
        e = GroqitStageError (msg_receive_path path))
    /\ (Py.endswith path ".onnx" = true ->
        declared_opset m <> None ->
        e = GroqitStageError (msg_dynamic E)).
Proof.
  intros Hmodel Hfile Hdyn.
  apply has_dynamic_true in Hdyn.
  apply wp_fails.
  cbn [fire]. unfold ReceiveOnnxModel_fire.
  destruct (Py.endswith path ".onnx") eqn:Hends; wp_go E.
  - unfold declared_opset.
    destruct (Py.re_search_digits (opset_import_str m)) as [group|] eqn:Hs;
      wp_go E; repeat split; try discriminate; try reflexivity.
    intros _ Hnone. now elim Hnone.
  - repeat split; try discriminate; reflexivity.
Qed.

Lemma wp_result {A} (m : M A) (P : Result A -> World -> Prop) w :
  wp m (fun a w' => P (Return a) w') (fun e w' => P (Raise e) w') w ->
  exists r w', m w = (r, w') /\ P r w'.
Proof. unfold wp. destruct (m w) as [[a|e] w']; eauto. Qed.

Lemma passes_checker_insert files path c :
  passes_checker E (<[path := c]> files) path
  = match onnx_checker E c with None => true | Some _ => false end.
Proof. unfold passes_checker. now rewrite lookup_insert_eq. Qed.


Lemma check_model_log_passed files path success_message fail_message :
  passes_checker E files path = true ->
  check_model_log E files path success_message fail_message
  = [EvPrint success_message;
     EvPrint (Py.tab +:+ "Successfully checked onnx file")].
Proof.
  unfold passes_checker, check_model_log.
  destruct (files !! path) as [c|]; [|discriminate].
  now destruct (onnx_checker E c).
Qed.



End Receive.

(** ** The operator-support check *)

Section Compatibility.
Context (E : Env).

Lemma all_ops_supported_false (ops unsupported : list string) :
  (length unsupported =? 0)%nat && negb (length ops =? 0)%nat = false
  <-> unsupported <> [] \/ ops = [].
Proof.
  destruct unsupported, ops; cbn; split; intros H;
    try discriminate; try reflexivity; auto;
    destruct H as [H|H]; congruence.
Qed.

(** C2, as the stage has it, for a non-empty [intermediate_results].  When
    the SDK dependency check fails, [CheckOnnxCompatibility.fire] raises
    the [GroqitStageError] of that check at once: the oracle has not been
    asked, the check is the only event logged, and neither the state nor
    any file has changed.  When the check passes and the oracle answers
    for the artifact at the head of [intermediate_results], the stage
    raises if and only if the unsupported list is non-empty or the operator
    list is empty; the error is the [GroqitStageError] whose message holds
    the unsupported operators joined by commas, so every one of them shows
    in it; and when the stage returns, [intermediate_results] is what it
    was.  No file is touched either way. *)
Theorem compatibility_raises_iff
    (w : World) (input_onnx : string) (rest : list string) :
  intermediate_results (state w) = input_onnx :: rest ->
  match check_dependencies E true with
  | Some msg =>
      fire E CheckOnnxCompatibility w
      = (Raise (GroqitStageError msg), logged w [EvCheckDependencies true])
  | None =>
      forall ops unsupported : list string,
        check_ops E (fs w !! input_onnx) (use_sdk (state w))
        = Done (ops, unsupported) ->
        exists (r : Result State) (w' : World),
          fire E CheckOnnxCompatibility w = (r, w')
          /\ fs w' = fs w
          /\ intermediate_results (state w') = input_onnx :: rest
          /\ ((exists e, r = Raise e) <-> (unsupported <> [] \/ ops = []))
          /\ (unsupported <> [] \/ ops = [] ->
              r = Raise (GroqitStageError
                           (msg_unsupported (Py.join ", " unsupported)))
              /\ forall op, In op unsupported ->
                   Py.contains op
                     (msg_unsupported (Py.join ", " unsupported)))
          /\ (~ (unsupported <> [] \/ ops = []) -> r = Return (state w'))
  end.
Proof.
  intros Hres.
  destruct (check_dependencies E true) as [msg|] eqn:Hdeps.
  { assert (Hwp : wp (fire E CheckOnnxCompatibility) (fun _ _ => False)
              (fun e w' =>
                 e = GroqitStageError msg
                 /\ w' = logged w [EvCheckDependencies true]) w).
    { cbn [fire]. unfold CheckOnnxCompatibility_fire. wp_go E. now split. }
    apply wp_fails in Hwp. now destruct Hwp as (e & w' & Hrun & -> & ->). }
  intros ops unsupported Hops.
  apply wp_result with
    (P := fun r w' =>
       fs w' = fs w
       /\ intermediate_results (state w') = input_onnx :: rest
       /\ ((exists e, r = Raise e) <-> (unsupported <> [] \/ ops = []))
       /\ (unsupported <> [] \/ ops = [] ->
           r = Raise (GroqitStageError
                        (msg_unsupported (Py.join ", " unsupported)))
           /\ forall op, In op unsupported ->
                Py.contains op (msg_unsupported (Py.join ", " unsupported)))
       /\ (~ (unsupported <> [] \/ ops = []) -> r = Return (state w'))).
  cbn [fire]. unfold CheckOnnxCompatibility_fire. wp_go E.
  destruct ((length unsupported =? 0)%nat && negb (length ops =? 0)%nat)
    eqn:Hall; wp_go E.
  - assert (Hno : ~ (unsupported <> [] \/ ops = [])).
    { intros Hbad. apply all_ops_supported_false in Hbad. congruence. }
    repeat split; try assumption; try tauto.
    intros (e & He). discriminate.
  - apply all_ops_supported_false in Hall.
    repeat split; try assumption; try tauto; eauto.
    intros op Hin. unfold msg_unsupported.
    apply PyFacts.contains_trans with
      (sp12 +:+ "**" +:+ Py.join ", " unsupported +:+ "**");
      [|apply PyFacts.contains_lines; cbn; tauto].
    apply PyFacts.contains_trans with (Py.join ", " unsupported).
    + now apply PyFacts.contains_join.
    + apply PyFacts.contains_append_r, PyFacts.contains_append_r,
        PyFacts.contains_append_l, PyFacts.contains_refl.
Qed.

End Compatibility.

(** ** Export from a PyTorch module *)

Section ExportPytorch.
Context (E : Env).

Lemma check_model_log_no_export files path success_message fail_message :
  forallb (fun e => negb (is_export e))
    (check_model_log E files path success_message fail_message) = true.
Proof.
  unfold check_model_log. destruct (files !! path) as [c|]; [|reflexivity].
  now destruct (onnx_checker E c).
Qed.

(** From the export call on, the stage is the same for both kinds of
    module: it calls the exporter with what it is given and raises no
    [ValueError]. *)
Lemma export_tail_spec m args input_names w :
  wp (export_tail E m args input_names)
     (fun _ w' => exported_with E w w' m args input_names)
     (fun e w' => exported_with E w w' m args input_names
                  /\ forall msg, e <> ValueError msg) w.
Proof.
  unfold export_tail. wp_step. wp_step. wp_step. wp_step. wp_step. wp_step.
  cbn [opset set_opset info set_info]. wp_run E.
  all: unfold exported_with; cbn [trace state base_onnx_file set_info].
  all: try (split; [|intros ?; discriminate]).
  all: eexists; (split; [rewrite <- ?app_assoc; reflexivity|]).
  all: cbn [app forallb is_export negb andb];
    rewrite ?check_model_log_no_export; reflexivity.
Qed.

Lemma not_emitted_in_place w e : ~ emits w w e.
Proof.
  intros (t & Heq & Hin).
  rewrite <- (app_nil_r (trace w)) in Heq at 1.
  apply app_inv_head in Heq. subst t. destruct Hin.
Qed.

(** C4: when [state.model] is a [torch.nn.Module] that is not scripted and
    some name of [state.inputs] is not a parameter of its forward
    signature, [ExportPytorchModel.fire] raises the [ValueError] about the
    first such name [inp]; the message shows [inp], the list of all
    declared parameters and so each of them; and the world is left as it
    was: no event has been logged, so the exporter has not been called,
    and neither the state nor any file has changed. *)
Theorem export_rejects_unknown_input
    (w : World) (cls : string) (forward_params : list string) :
  model (state w) = TorchModule cls forward_params ->
  (exists name, In name (Py.keys (inputs (state w)))
                /\ ~ In name forward_params) ->
  exists inp : string,
    In inp (Py.keys (inputs (state w)))
    /\ ~ In inp forward_params
    /\ fire E ExportPytorchModel w
       = (Raise (ValueError (msg_input_name inp forward_params)), w)
    /\ Py.contains inp (msg_input_name inp forward_params)
    /\ Py.contains (Py.repr_list forward_params)
                   (msg_input_name inp forward_params)
    /\ (forall p, In p forward_params ->
          Py.contains p (msg_input_name inp forward_params))
    /\ (forall e, is_export e = true -> ~ emits w w e).
Proof.
  intros Hmodel (name & Hname & Hunknown).
  destruct (first_unknown (Py.keys (inputs (state w))) forward_params)
    as [inp|] eqn:Hfirst.
  2:{ exfalso. apply Hunknown.
      now apply (proj1 (first_unknown_None _ _) Hfirst). }
  exists inp. pose proof (first_unknown_Some _ _ _ Hfirst) as [Hin Hnin].
  assert (Hlist : Py.contains (Py.repr_list forward_params)
                    (msg_input_name inp forward_params)).
  { unfold msg_input_name.
    apply PyFacts.contains_trans with
      (sp20 +:+ "inputs are: " +:+ Py.repr_list forward_params
            +:+ Py.dquote);
      [|apply PyFacts.contains_lines; cbn; tauto].
    apply PyFacts.contains_append_r, PyFacts.contains_append_r,
      PyFacts.contains_append_l, PyFacts.contains_refl. }
  repeat split; try assumption.
  - assert (Hwp : wp (fire E ExportPytorchModel) (fun _ _ => False)
              (fun e w' =>
                 e = ValueError (msg_input_name inp forward_params)
                 /\ w' = w) w).
    { cbn [fire]. unfold ExportPytorchModel_fire. wp_go E. now split. }
    apply wp_fails in Hwp. destruct Hwp as (e & w' & Hrun & -> & ->).
    exact Hrun.
  - unfold msg_input_name.
    apply PyFacts.contains_trans with
      (sp20 +:+ "Input name " +:+ inp
            +:+ " not found in the model's forward method. Available");
      [|apply PyFacts.contains_lines; cbn; tauto].
    apply PyFacts.contains_append_r, PyFacts.contains_append_r,
      PyFacts.contains_append_l, PyFacts.contains_refl.
  - intros p Hp. apply PyFacts.contains_trans with
      (Py.repr_list forward_params); [|assumption].
    now apply PyFacts.contains_repr_list.
  - intros e _. apply not_emitted_in_place.
Qed.

Lemma positional_values_match (ins : Py.dict PyValue) (l : list string) :
  Forall2 (fun p v => match Py.get ins p with
                      | Some u => v = u
                      | None => v = None
                      end)
          l (map (positional_value ins) l).
Proof.
  induction l as [|p l IH]; cbn; constructor; [|assumption].
  unfold positional_value. now destruct (Py.get ins p).
Qed.

Lemma positional_values_lookup (ins : Py.dict PyValue) (l : list string)
    (k : string) :
  In k l ->
  exists i : nat, l !! i = Some k
                  /\ map (positional_value ins) l !! i
                     = Some (positional_value ins k).
Proof.
  induction l as [|p l IH]; intros Hin; [destruct Hin|].
  destruct Hin as [->|Hin].
  - exists 0%nat. now split.
  - destruct (IH Hin) as (i & Hi & Hv). exists (S i). now split.
Qed.

(** C8: when [state.model] is a [torch.nn.Module] that is not scripted and
    every name of [state.inputs] is a parameter of its forward signature,
    [ExportPytorchModel.fire] calls the exporter, once and before anything
    else, with the declared parameters as input names and one positional
    value per declared parameter in signature order: the value
    [state.inputs] holds for the parameter, or [None] when it holds none.
    So every user input reaches the exporter at the position of its
    parameter, and there are exactly as many positional values as
    parameters. *)
Theorem export_positional_arguments
    (w : World) (cls : string) (forward_params : list string) :
  model (state w) = TorchModule cls forward_params ->
  (forall name, In name (Py.keys (inputs (state w))) ->
                In name forward_params) ->
  exists (r : Result State) (w' : World) (args : list PyValue),
    fire E ExportPytorchModel w = (r, w')
    /\ exported_with E w w' (TorchModule cls forward_params) args
                     forward_params
    /\ length args = length forward_params
    /\ Forall2 (fun p v => match Py.get (inputs (state w)) p with
                           | Some u => v = u
                           | None => v = None
                           end)
               forward_params args
    /\ (forall k v,
          Py.get (inputs (state w)) k = Some v ->
          In k forward_params ->
          exists i : nat, forward_params !! i = Some k
                          /\ args !! i = Some v).
Proof.
  intros Hmodel Hnames.
  apply first_unknown_None in Hnames.
  set (args := map (positional_value (inputs (state w))) forward_params).
  destruct (wp_result (fire E ExportPytorchModel)
              (fun _ w' => exported_with E w w'
                             (TorchModule cls forward_params) args
                             forward_params) w)
    as (r & w' & Hrun & Hexp).
  { cbn [fire]. unfold ExportPytorchModel_fire. wp_go E.
    rewrite positional_map. fold args.
    eapply wp_mono; [apply export_tail_spec | |]; cbn; tauto. }
  exists r, w', args. repeat split; try assumption.
  - unfold args. now rewrite length_map.
  - apply positional_values_match.
  - intros k v Hget Hin.
    destruct (positional_values_lookup (inputs (state w)) _ _ Hin)
      as (i & Hi & Hv).
    exists i. split; [assumption|]. fold args in Hv. rewrite Hv.
    unfold positional_value. now rewrite Hget.
Qed.

(** C10: when [state.model] is a [torch.jit.ScriptModule],
    [ExportPytorchModel.fire] goes straight to the exporter, whatever the
    names of [state.inputs] are: the positional values are the values of
    the mapping and the input names its keys, both in the mapping's own
    order, and the stage raises no [ValueError].  A [ValueError] of the
    stage is the name mismatch of a [torch.nn.Module] that is not
    scripted. *)
Theorem script_module_skips_name_check (w : World) :
  (forall cls forward_params,
      model (state w) = ScriptModule cls forward_params ->
      exists (r : Result State) (w' : World),
        fire E ExportPytorchModel w = (r, w')
        /\ exported_with E w w' (ScriptModule cls forward_params)
                         (Py.values (inputs (state w)))
                         (Py.keys (inputs (state w)))
        /\ forall msg, r <> Raise (ValueError msg))
  /\ (forall msg w',
        fire E ExportPytorchModel w = (Raise (ValueError msg), w') ->
        exists cls forward_params inp,
          model (state w) = TorchModule cls forward_params
          /\ In inp (Py.keys (inputs (state w)))
          /\ ~ In inp forward_params
          /\ msg = msg_input_name inp forward_params).
Proof.
  split.
  - intros cls forward_params Hmodel.
    apply wp_result with
      (P := fun r w' =>
         exported_with E w w' (ScriptModule cls forward_params)
                       (Py.values (inputs (state w)))
                       (Py.keys (inputs (state w)))
         /\ forall msg, r <> Raise (ValueError msg)).
    cbn [fire]. unfold ExportPytorchModel_fire. wp_go E.
    eapply wp_mono; [apply export_tail_spec | |]; cbn.
    + intros a w' Hexp. split; [assumption | intros msg; discriminate].
    + intros e w' [Hexp Hne]. split; [assumption|].
      intros msg [= ->]. now apply (Hne msg).
  - intros msg w' Hrun.
    assert (Hwp : wp (fire E ExportPytorchModel) (fun _ _ => True)
              (fun e _ =>
                 forall msg, e = ValueError msg ->
                   exists cls forward_params inp,
                     model (state w) = TorchModule cls forward_params
                     /\ In inp (Py.keys (inputs (state w)))
                     /\ ~ In inp forward_params
                     /\ msg = msg_input_name inp forward_params) w).
    { cbn [fire]. unfold ExportPytorchModel_fire. wp_step. wp_step.
      destruct (model (state w)) as [p|cls params|cls params|cls] eqn:Hm;
        wp_go E; try (intros ?; discriminate).
      - destruct (first_unknown (Py.keys (inputs (state w))) params)
          as [inp|] eqn:Hfirst; wp_go E.
        + intros msg' [= <-]. exists cls, params, inp.
          apply first_unknown_Some in Hfirst. tauto.
        + rewrite positional_map.
          eapply wp_mono; [apply export_tail_spec | |]; cbn; [tauto|].
          intros e _ [_ Hne] msg' ->. now elim (Hne msg').
      - eapply wp_mono; [apply export_tail_spec | |]; cbn; [tauto|].
        intros e _ [_ Hne] msg' ->. now elim (Hne msg'). }
    exact (wp_raises _ _ _ _ _ _ Hwp Hrun msg eq_refl).
Qed.

End ExportPytorch.

(** ** The claims on a concrete build *)

Section Concrete.
Import Examples.

Lemma receive_rejects_dynamic_shapes_witness :
  dynamic_shapes (ex_model 13 (-1) ["Conv"; "Relu"])
  /\ exists w' : World,
       fire ex_env ReceiveOnnxModel (ex_receive 13 (-1) ["Conv"; "Relu"])
       = (Raise (GroqitStageError (msg_dynamic ex_env)), w')
       /\ fs w' = fs (ex_receive 13 (-1) ["Conv"; "Relu"]).
Proof.
  assert (Hdyn : dynamic_shapes (ex_model 13 (-1) ["Conv"; "Relu"])).
  { exists (mkValueInfo "x" [DimValue (-1); DimValue 3; DimValue 224;
                              DimValue 224]), (DimValue (-1)).
    cbn. repeat split; auto. }
  split; [exact Hdyn|].
  destruct (receive_rejects_dynamic_shapes ex_env
              (ex_receive 13 (-1) ["Conv"; "Relu"]) "m.onnx"
              (ex_model 13 (-1) ["Conv"; "Relu"])
              eq_refl eq_refl Hdyn)
    as (e & w' & Hrun & Hfs & _ & _ & _ & _ & _ & Hstage).
  assert (He : e = GroqitStageError (msg_dynamic ex_env)).
  { apply Hstage; [reflexivity|]. intros Hnone. vm_compute in Hnone.
    discriminate. }
  subst e. exists w'. split; [exact Hrun | exact Hfs].
Defined.

Lemma receive_rejects_dynamic_shapes_counterexample :
  dynamic_shapes ex_model_without_opset
  /\ Py.endswith "m.onnx" ".onnx" = true
  /\ fs (ex_receive_at "m.onnx" ex_model_without_opset) !! "m.onnx"
     = Some (OnnxFile ex_model_without_opset)
  /\ fire ex_env ReceiveOnnxModel (ex_receive_at "m.onnx" ex_model_without_opset)
     = (Raise (AttributeError "'NoneType' object has no attribute 'group'"),
        ex_receive_at "m.onnx" ex_model_without_opset).
Proof.
  split.
  - exists (mkValueInfo "x" [DimParam "batch"; DimValue 3; DimValue 224;
                              DimValue 224]), (DimParam "batch").
    cbn. repeat split; auto.
  - repeat split; vm_compute; reflexivity.
Qed.


Lemma compatibility_raises_iff_counterexample :
  check_ops ex_env_no_sdk
    (fs (ex_after_base ["Conv"; "Relu"]) !! "build/m-base.onnx")
    (use_sdk (state (ex_after_base ["Conv"; "Relu"])))
  = Done (["Conv"; "Relu"], [])
  /\ (exists e w',
        fire ex_env_no_sdk CheckOnnxCompatibility
             (ex_after_base ["Conv"; "Relu"]) = (Raise e, w'))
  /\ ~ (@nil string <> [] \/ ["Conv"; "Relu"] = @nil string)
  /\ (exists w',
        fire ex_env CheckOnnxCompatibility (ex_receive 13 1 ["Conv"; "Relu"])
        = (Raise (IndexError "list index out of range"), w')
        /\ trace w' = [EvCheckDependencies true]).
Proof.
  split; [reflexivity|]. split; [|split].
  - eexists _, _. vm_compute. reflexivity.
  - intros [H|H]; [now apply H | discriminate].
  - eexists. split; vm_compute; reflexivity.
Qed.

Lemma compatibility_raises_iff_witness :
  (exists w' : World,
      fire ex_env CheckOnnxCompatibility (ex_after_base ["Conv"; "Einsum"])
      = (Raise (GroqitStageError (msg_unsupported (Py.join ", " ["Einsum"]))),
         w')
      /\ Py.contains "Einsum" (msg_unsupported (Py.join ", " ["Einsum"])))
  /\ fire ex_env_no_sdk CheckOnnxCompatibility
          (ex_after_base ["Conv"; "Relu"])
     = (Raise (GroqitStageError "GroqWare Suite not found"),
        logged (ex_after_base ["Conv"; "Relu"]) [EvCheckDependencies true]).
Proof.
  split.
  - destruct (compatibility_raises_iff ex_env
                (ex_after_base ["Conv"; "Einsum"]) "build/m-base.onnx" []
                eq_refl ["Conv"; "Einsum"] ["Einsum"] eq_refl)
      as (r & w' & Hrun & _ & _ & _ & Hbad & _).
    destruct Hbad as [-> Hshown]; [left; discriminate|].
    exists w'. split; [exact Hrun|]. apply Hshown. now left.
  - exact (compatibility_raises_iff ex_env_no_sdk
             (ex_after_base ["Conv"; "Relu"]) "build/m-base.onnx" []
             eq_refl).
Defined.



Lemma export_rejects_unknown_input_witness :
  exists inp : string,
    fire ex_env ExportPytorchModel
         (ex_export (TorchModule "Net" ["x"; "mask"])
                    [("y", Some ex_tensor)])
    = (Raise (ValueError (msg_input_name inp ["x"; "mask"])),
       ex_export (TorchModule "Net" ["x"; "mask"]) [("y", Some ex_tensor)])
    /\ Py.contains inp (msg_input_name inp ["x"; "mask"]).
Proof.
  destruct (export_rejects_unknown_input ex_env
              (ex_export (TorchModule "Net" ["x"; "mask"])
                         [("y", Some ex_tensor)])
              "Net" ["x"; "mask"] eq_refl)
    as (inp & _ & _ & Hrun & Hshown & _).
  - exists "y". split; [now left|].
    intros [H|[H|[]]]; discriminate.
  - exists inp. split; [exact Hrun | exact Hshown].
Defined.



Lemma artifact_stage_sets_single_result_witness :
  exists (st' : State) (w' : World),
    fire ex_env OptimizeOnnxModel (ex_after_base ["Conv"; "Relu"])
    = (Return st', w')
    /\ intermediate_results st' = ["build/m-opt.onnx"].
Proof.
  destruct (fire ex_env OptimizeOnnxModel (ex_after_base ["Conv"; "Relu"]))
    as [[st'|e] w'] eqn:Hrun; [|vm_compute in Hrun; discriminate].
  exists st', w'. split; [reflexivity|].
  exact (proj1 (artifact_stage_sets_single_result ex_env OptimizeOnnxModel
                  opt_onnx_file _ st' w' eq_refl Hrun)).
Defined.

Lemma stage_stays_in_its_frame_counterexample :
  exists (st' : State) (w' : World),
    fire ex_env ReceiveOnnxModel (ex_receive 13 1 ["Conv"; "Relu"])
    = (Return st', w')
    /\ base_onnx_file (state (ex_receive 13 1 ["Conv"; "Relu"]))
       = "build/m-base.onnx"
    /\ fs (ex_receive 13 1 ["Conv"; "Relu"]) !! "build/inputs_original.npy"
       = None
    /\ fs w' !! "build/inputs_original.npy"
       = Some (InputsFile
                 [[("x", Some (mkTensor float16 [1; 3; 224; 224] []))]])
    /\ fs (ex_receive 13 1 ["Conv"; "Relu"]) !! "m.onnx"
       = Some (OnnxFile (ex_model 13 1 ["Conv"; "Relu"]))
    /\ fs w' !! "m.onnx" = None
    /\ exists (st2 : State) (w2 : World),
         fire ex_env ReceiveOnnxModel
              (ex_receive_at "build/m-opt.onnx"
                             (ex_model 13 1 ["Conv"; "Relu"]))
         = (Return st2, w2)
         /\ opt_onnx_file st2 = "build/m-opt.onnx"
         /\ fs (ex_receive_at "build/m-opt.onnx"
                              (ex_model 13 1 ["Conv"; "Relu"]))
            !! "build/m-opt.onnx"
            = Some (OnnxFile (ex_model 13 1 ["Conv"; "Relu"]))
         /\ fs w2 !! "build/m-opt.onnx" = None.
Proof.
  eexists _, _. split; [vm_compute; reflexivity|].
  do 5 (split; [vm_compute; reflexivity|]).
  eexists _, _. split; [vm_compute; reflexivity|].
  repeat split; vm_compute; reflexivity.
Qed.

Lemma export_positional_arguments_witness :
  exists (r : Result State) (w' : World),
    fire ex_env ExportPytorchModel
         (ex_export (TorchModule "Net" ["x"; "mask"])
                    [("x", Some ex_tensor)]) = (r, w')
    /\ exported_with ex_env
         (ex_export (TorchModule "Net" ["x"; "mask"])
                    [("x", Some ex_tensor)]) w'
         (TorchModule "Net" ["x"; "mask"]) [Some ex_tensor; None]
         ["x"; "mask"].
Proof.
  destruct (export_positional_arguments ex_env
              (ex_export (TorchModule "Net" ["x"; "mask"])
                         [("x", Some ex_tensor)])
              "Net" ["x"; "mask"] eq_refl)
    as (r & w' & args & Hrun & Hexp & _ & Hargs & _).
  - intros name [<-|[]]. now left.
  - exists r, w'. split; [exact Hrun|].
    inversion Hargs as [|p v l l' Hx Hrest]; subst.
    inversion Hrest as [|p' v' l2 l2' Hmask Hnil]; subst.
    inversion Hnil; subst. cbn in Hx, Hmask. subst. exact Hexp.
Defined.

Lemma script_module_skips_name_check_witness :
  exists (r : Result State) (w' : World),
    fire ex_env ExportPytorchModel
         (ex_export (ScriptModule "Net" ["x"])
                    [("anything", Some ex_tensor)]) = (r, w')
    /\ exported_with ex_env
         (ex_export (ScriptModule "Net" ["x"])
                    [("anything", Some ex_tensor)]) w'
         (ScriptModule "Net" ["x"]) [Some ex_tensor] ["anything"].
Proof.
  destruct (proj1 (script_module_skips_name_check ex_env
                     (ex_export (ScriptModule "Net" ["x"])
                                [("anything", Some ex_tensor)]))
              "Net" ["x"] eq_refl)
    as (r & w' & Hrun & Hexp & _).
  exists r, w'. split; [exact Hrun | exact Hexp].
Defined.

End Concrete.

(** * Further properties of the stages *)

Section Preconditions.
Context (E : Env).

Lemma contains_line (sub line : string) (l : list string) :
  In line l -> Py.contains sub line -> Py.contains sub (Py.lines l).
Proof.
  intros Hin Hsub. apply PyFacts.contains_trans with line; [assumption|].
  now apply PyFacts.contains_lines.
Qed.

(** X1: when [state.model] is not a string ending in .onnx,
    [ReceiveOnnxModel.fire] raises a [GroqitStageError] and leaves the world
    exactly as it was.  For a string the message is the one about the path
    and shows the path received; for any other object it is the one about
    the type and shows the type of the model. *)
Theorem receive_rejects_other_models (w : World) :
  is_onnx_path (model (state w)) = false ->
  exists msg : string,
    fire E ReceiveOnnxModel w = (Raise (GroqitStageError msg), w)
    /\ match model (state w) with
       | PyStr path => msg = msg_receive_path path /\ Py.contains path msg
       | o => msg = msg_receive_type o /\ Py.contains (type_repr o) msg
       end.
Proof.
  intros Hno.
  assert (Htype : forall o, Py.contains (type_repr o) (msg_receive_type o)).
  { intros o. unfold msg_receive_type.
    eapply contains_line with (line := sp12 +:+ type_repr o +:+ ".");
      [cbn; tauto|].
    apply PyFacts.contains_append_r, PyFacts.contains_append_l,
      PyFacts.contains_refl. }
  assert (Hwp : wp (fire E ReceiveOnnxModel) (fun _ _ => False)
            (fun e w' =>
               w' = w
               /\ exists msg, e = GroqitStageError msg
                  /\ match model (state w) with
                     | PyStr path =>
                         msg = msg_receive_path path /\ Py.contains path msg
                     | o => msg = msg_receive_type o
                            /\ Py.contains (type_repr o) msg
                     end) w).
  { cbn [fire]. unfold ReceiveOnnxModel_fire. wp_step. wp_step.
    destruct (model (state w)) as [path|cls ps|cls ps|cls] eqn:Hm;
      cbn [is_onnx_path] in Hno; wp_go E;
      (split; [reflexivity|]); eexists; (split; [reflexivity|]);
      (split; [reflexivity|]); try apply Htype.
    unfold msg_receive_path.
    eapply contains_line with
      (line := sp12 +:+ "model, however the stage received " +:+ path
                    +:+ "."); [cbn; tauto|].
    apply PyFacts.contains_append_r, PyFacts.contains_append_r,
      PyFacts.contains_append_l, PyFacts.contains_refl. }
  apply wp_fails in Hwp.
  destruct Hwp as (e & w' & Hrun & -> & msg & -> & Hmsg).
  exists msg. split; assumption.
Qed.

(** X2: when [state.model] is neither a [torch.nn.Module] nor a
    [torch.jit.ScriptModule], [ExportPytorchModel.fire] raises the
    [GroqitStageError] that shows the type of the model, and leaves the
    world exactly as it was: the exporter is not called. *)
Theorem export_rejects_other_models (w : World) :
  match model (state w) with
  | TorchModule _ _ | ScriptModule _ _ => False
  | _ => True
  end ->
  fire E ExportPytorchModel w
  = (Raise (GroqitStageError (msg_export_type (model (state w)))), w)
  /\ Py.contains (type_repr (model (state w)))
                 (msg_export_type (model (state w))).
Proof.
  intros Hno. split.
  - assert (Hwp : wp (fire E ExportPytorchModel) (fun _ _ => False)
              (fun e w' =>
                 e = GroqitStageError (msg_export_type (model (state w)))
                 /\ w' = w) w).
    { cbn [fire]. unfold ExportPytorchModel_fire. wp_step. wp_step.
      destruct (model (state w)); try contradiction; wp_go E; now split. }
    apply wp_fails in Hwp. now destruct Hwp as (e & w' & Hrun & -> & ->).
  - unfold msg_export_type.
    eapply contains_line with
      (line := sp12 +:+ "the stage received a model of type "
                    +:+ type_repr (model (state w)) +:+ ".");
      [cbn; tauto|].
    apply PyFacts.contains_append_r, PyFacts.contains_append_r,
      PyFacts.contains_append_l, PyFacts.contains_refl.
Qed.

(** X3: the failures of [ReceiveOnnxModel.fire] that are no stage errors.
    With a path ending in .onnx, a missing file makes [onnx.load] raise
    [FileNotFoundError], a file that is no ONNX model [DecodeError], and a
    model whose rendered [opset_import] holds no digit makes the search for
    the opset raise [AttributeError], whatever its input shapes are.  In all
    three cases no file has been touched, nothing has been logged, and
    [intermediate_results] and [info] are as before. *)
Theorem receive_unreadable_model (w : World) (path : string) :
  model (state w) = PyStr path ->
  Py.endswith path ".onnx" = true ->
  (forall m, fs w !! path = Some (OnnxFile m) -> declared_opset m = None) ->
  exists w' : World,
    fire E ReceiveOnnxModel w
    = (Raise (match fs w !! path with
              | None => FileNotFoundError path
              | Some (OnnxFile _) =>
                  AttributeError "'NoneType' object has no attribute 'group'"
              | Some _ => DecodeError path
              end), w')
    /\ fs w' = fs w
    /\ trace w' = trace w
    /\ intermediate_results (state w') = intermediate_results (state w)
    /\ info (state w') = info (state w).
Proof.
  intros Hmodel Hends Hopset.
  assert (Hwp : wp (fire E ReceiveOnnxModel) (fun _ _ => False)
            (fun e w' =>
               e = match fs w !! path with
                   | None => FileNotFoundError path
                   | Some (OnnxFile _) =>
                       AttributeError
                         "'NoneType' object has no attribute 'group'"
                   | Some _ => DecodeError path
                   end
               /\ fs w' = fs w
               /\ trace w' = trace w
               /\ intermediate_results (state w')
                  = intermediate_results (state w)
               /\ info (state w') = info (state w)) w).
  { cbn [fire]. unfold ReceiveOnnxModel_fire. wp_go E.
    destruct (fs w !! path) as [[m|saved|bytes]|] eqn:Hfile; wp_go E;
      try (repeat split; fail).
    specialize (Hopset m eq_refl). unfold declared_opset in Hopset.
    destruct (Py.re_search_digits (opset_import_str m)) eqn:Hs;
      [discriminate|].
    wp_go E. repeat split. }
  apply wp_fails in Hwp. destruct Hwp as (e & w' & Hrun & -> & Hrest).
  exists w'. split; assumption.
Qed.

(** X4: with an empty [state.intermediate_results], [OptimizeOnnxModel.fire]
    and [ConvertOnnxToFp16.fire] raise [IndexError] and leave the world
    exactly as it was; [CheckOnnxCompatibility.fire] first checks the SDK
    dependencies, so it raises their [GroqitStageError] when they are
    missing and [IndexError] otherwise, having logged only that check. *)
Theorem consumers_need_an_artifact (w : World) :
  intermediate_results (state w) = [] ->
  fire E OptimizeOnnxModel w
  = (Raise (IndexError "list index out of range"), w)
  /\ fire E ConvertOnnxToFp16 w
     = (Raise (IndexError "list index out of range"), w)
  /\ fire E CheckOnnxCompatibility w
     = match check_dependencies E true with
       | None => (Raise (IndexError "list index out of range"),
                  logged w [EvCheckDependencies true])
       | Some msg => (Raise (GroqitStageError msg),
                      logged w [EvCheckDependencies true])
       end.
Proof.
  intros Hres.
  assert (Hstop : forall s e w1,
             wp (fire E s) (fun _ _ => False)
                (fun e' w' => e' = e /\ w' = w1) w ->
             fire E s w = (Raise e, w1)).
  { intros s e w1 Hwp. apply wp_fails in Hwp.
    now destruct Hwp as (e' & w' & Hrun & -> & ->). }
  split; [|split].
  - apply Hstop. cbn [fire]. unfold OptimizeOnnxModel_fire. wp_go E.
    now split.
  - apply Hstop. cbn [fire]. unfold ConvertOnnxToFp16_fire. wp_go E.
    now split.
  - destruct (check_dependencies E true) as [msg|] eqn:Hdeps;
      apply Hstop; cbn [fire]; unfold CheckOnnxCompatibility_fire;
      wp_go E; now split.
Qed.

End Preconditions.

Section Gates.
Context (E : Env).

Ltac solve_gate :=
  cbn [state fs trace info set_info exported_flag postcondition_error
       is_external base_onnx_exported opt_onnx_exported
       converted_onnx_exported set_base_onnx_exported set_opset
       set_opt_onnx_exported set_converted_onnx_exported
       artifact_slot];
  first [ reflexivity
        | left; reflexivity
        | right; left; reflexivity
        | right; right; split; reflexivity ].

(** What the validator's verdict does to a stage: on return the stage's
    exported flag is set, and an error that is not a collaborator's own
    either left every file alone or is the stage's postcondition error,
    raised with the flag cleared. *)
Lemma fire_gate s w :
  wp (fire E s)
     (fun _ w' =>
        match artifact_slot s with
        | Some _ => exported_flag s (info (state w')) = Some true
        | None => fs w' = fs w
        end)
     (fun e w' =>
        is_external e = true
        \/ fs w' = fs w
        \/ (postcondition_error E s = Some e
            /\ exported_flag s (info (state w')) = Some false)) w.
Proof.
  destruct s; cbn [fire artifact_slot];
    unfold ReceiveOnnxModel_fire, ExportPytorchModel_fire, export_tail,
      OptimizeOnnxModel_fire, CheckOnnxCompatibility_fire,
      ConvertOnnxToFp16_fire;
    wp_run E; solve_gate.
Qed.

(** X5: when [fire] raises an error that is not a collaborator's own,
    either no file has been touched, or the error is the stage's
    postcondition error and the stage's exported flag in [info] has been
    set to [False]. *)
Theorem files_touched_only_before_postcondition_error
    (s : Stage) (w : World) (e : Exception) (w' : World) :
  fire E s w = (Raise e, w') ->
  is_external e = false ->
  fs w' = fs w
  \/ (postcondition_error E s = Some e
      /\ exported_flag s (info (state w')) = Some false).
Proof.
  intros Hrun Hown.
  pose proof (wp_raises _ _ _ _ _ _ (fire_gate s w) Hrun) as [Hext|H];
    [congruence | exact H].
Qed.

(** X6: when a stage that produces an artifact returns, its exported flag
    in [info] ([base_onnx_exported], [opt_onnx_exported] or
    [converted_onnx_exported]) is [True]. *)
Theorem returning_stage_sets_its_flag
    (s : Stage) (slot : State -> string) (w : World)
    (st' : State) (w' : World) :
  artifact_slot s = Some slot ->
  fire E s w = (Return st', w') ->
  exported_flag s (info st') = Some true.
Proof.
  intros Hslot Hrun.
  pose proof (wp_returns _ _ _ _ _ _ (fire_gate s w) Hrun) as Hflag.
  pose proof (wp_returns _ _ _ _ _ _ (fire_frame E s w) Hrun) as (-> & _).
  now rewrite Hslot in Hflag.
Qed.

(** X7: once the dependency check has passed and the oracle has answered,
    [CheckOnnxCompatibility.fire] has recorded the answer in [info] whether
    it then returns or raises: [opt_onnx_ops] and
    [opt_onnx_unsupported_ops] are the two lists, and
    [opt_onnx_all_ops_supported] is [True] exactly when the unsupported
    list is empty and the operator list is not.  It has logged the
    dependency check, the oracle call and the count of unsupported
    operators, in this order, and nothing else. *)
Theorem compatibility_records_the_answer
    (w : World) (input_onnx : string) (rest : list string)
    (ops unsupported : list string) :
  check_dependencies E true = None ->
  intermediate_results (state w) = input_onnx :: rest ->
  check_ops E (fs w !! input_onnx) (use_sdk (state w))
  = Done (ops, unsupported) ->
  exists (r : Result State) (w' : World),
    fire E CheckOnnxCompatibility w = (r, w')
    /\ opt_onnx_ops (info (state w')) = Some ops
    /\ opt_onnx_unsupported_ops (info (state w')) = Some unsupported
    /\ opt_onnx_all_ops_supported (info (state w'))
       = Some (match unsupported, ops with
               | [], _ :: _ => true
               | _, _ => false
               end)
    /\ trace w'
       = trace w ++ [EvCheckDependencies true;
                     EvCheckOps input_onnx (use_sdk (state w));
                     EvPrint ("Model has " +:+ pretty (length unsupported)
                                +:+ " unsupported ops")].
Proof.
  intros Hdeps Hres Hops.
  apply wp_result with
    (P := fun (r : Result State) w' =>
       opt_onnx_ops (info (state w')) = Some ops
       /\ opt_onnx_unsupported_ops (info (state w')) = Some unsupported
       /\ opt_onnx_all_ops_supported (info (state w'))
          = Some (match unsupported, ops with
                  | [], _ :: _ => true
                  | _, _ => false
                  end)
       /\ trace w'
          = trace w ++ [EvCheckDependencies true;
                        EvCheckOps input_onnx (use_sdk (state w));
                        EvPrint ("Model has " +:+ pretty (length unsupported)
                                   +:+ " unsupported ops")]).
  cbn [fire]. unfold CheckOnnxCompatibility_fire. wp_go E.
  assert (Hall : (length unsupported =? 0)%nat && negb (length ops =? 0)%nat
                 = match unsupported, ops with
                   | [], _ :: _ => true
                   | _, _ => false
                   end)
    by (destruct unsupported, ops; reflexivity).
  rewrite Hall.
  destruct (match unsupported, ops with [], _ :: _ => true | _, _ => false end);
    wp_go E; cbn; rewrite <- ?app_assoc; repeat split; reflexivity.
Qed.

End Gates.

Section Inputs.
Context (E : Env).

Lemma keys_combine_map {V} (f : string -> V) (l : list string) :
  map fst (combine l (map f l)) = l.
Proof. induction l as [|x l IH]; cbn; [reflexivity | now rewrite IH]. Qed.

(** Building a dict from pairs with distinct keys keeps the pairs. *)
Lemma of_pairs_distinct {V} (pairs : list (string * V)) :
  List.NoDup (map fst pairs) -> Py.of_pairs pairs = pairs.
Proof.
  intros Hnd. unfold Py.of_pairs.
  now rewrite (PyFacts.of_pairs_acc [] pairs Hnd).
Qed.

(** X8: for a [state.inputs] with distinct keys, every stage leaves
    [state.inputs] equal to what it was, whether it returns or raises,
    except [ExportPytorchModel] on a [torch.nn.Module] that is not scripted:
    rebuilding the dict from its own keys and values, as
    [ReceiveOnnxModel] and the [ScriptModule] branch do, changes nothing. *)
Theorem inputs_survive_the_stage (s : Stage) (w : World) :
  List.NoDup (Py.keys (inputs (state w))) ->
  match s, model (state w) with
  | ExportPytorchModel, TorchModule _ _ => True
  | _, _ => inputs (state (snd (fire E s w))) = inputs (state w)
  end.
Proof.
  intros Hnd.
  pose proof (PyFacts.of_pairs_zip_id _ Hnd) as Hid.
  assert (Hwp : wp (fire E s)
            (fun _ w' =>
               match s, model (state w) with
               | ExportPytorchModel, TorchModule _ _ => True
               | _, _ => inputs (state w') = inputs (state w)
               end)
            (fun _ w' =>
               match s, model (state w) with
               | ExportPytorchModel, TorchModule _ _ => True
               | _, _ => inputs (state w') = inputs (state w)
               end) w).
  { destruct (model (state w)) eqn:Hm; destruct s; cbn [fire];
      unfold ReceiveOnnxModel_fire, ExportPytorchModel_fire, export_tail,
        OptimizeOnnxModel_fire, CheckOnnxCompatibility_fire,
        ConvertOnnxToFp16_fire;
      repeat first [wp_step | wp_call E | wp_known | wp_branch];
      cbn [inputs set_inputs set_info set_intermediate_results];
      try rewrite Hid; try reflexivity; exact I. }
  unfold wp in Hwp. destruct (fire E s w) as [[st'|e] w']; exact Hwp.
Qed.

(** X9: when [ExportPytorchModel.fire] exports a [torch.nn.Module] that
    is not scripted, with distinct parameters and only declared input
    names, and the exporter returns, [state.inputs] is replaced by a dict
    with one entry per declared parameter in signature order, [None] for
    the parameters the user gave no value for; this padded dict, with
    narrowed tensors, is what the reference-inputs file holds, and
    [info.opset] is the default opset.  This holds whether the exported
    file then passes the validator or not. *)
Theorem export_pads_the_inputs
    (w : World) (cls : string) (forward_params : list string)
    (written : option File) :
  model (state w) = TorchModule cls forward_params ->
  List.NoDup forward_params ->
  (forall name, In name (Py.keys (inputs (state w))) ->
                In name forward_params) ->
  torch_onnx_export E (TorchModule cls forward_params)
    (map (positional_value (inputs (state w))) forward_params)
    forward_params (DEFAULT_ONNX_OPSET E) = Done written ->
  exists (r : Result State) (w' : World),
    fire E ExportPytorchModel w = (r, w')
    /\ inputs (state w')
       = combine forward_params
           (map (positional_value (inputs (state w))) forward_params)
    /\ Py.keys (inputs (state w')) = forward_params
    /\ fs w' !! original_inputs_file (state w)
       = Some (InputsFile
                 [map (fun kv => (fst kv, narrow (snd kv)))
                      (inputs (state w'))])
    /\ opset (info (state w')) = Some (DEFAULT_ONNX_OPSET E).
Proof.
  intros Hmodel Hnd Hnames Hexport.
  apply first_unknown_None in Hnames.
  set (args := map (positional_value (inputs (state w))) forward_params)
    in *.
  assert (Hpairs : Py.of_pairs (Py.zip forward_params args)
                   = combine forward_params args).
  { apply of_pairs_distinct. unfold Py.zip, args.
    now rewrite keys_combine_map. }
  assert (Hkeys : Py.keys (combine forward_params args) = forward_params)
    by apply keys_combine_map.
  apply wp_result with
    (P := fun (r : Result State) w' =>
       inputs (state w') = combine forward_params args
       /\ Py.keys (inputs (state w')) = forward_params
       /\ fs w' !! original_inputs_file (state w)
          = Some (InputsFile
                    [map (fun kv => (fst kv, narrow (snd kv)))
                         (inputs (state w'))])
       /\ opset (info (state w')) = Some (DEFAULT_ONNX_OPSET E)).
  cbn [fire]. unfold ExportPytorchModel_fire. wp_go E.
  rewrite positional_map. fold args. unfold export_tail.
  wp_step. wp_step. wp_step. wp_step. wp_step. wp_step.
  cbn [opset set_opset info set_info]. wp_go E.
  rewrite Hpairs.
  destruct written as [c|]; wp_run E;
    cbn [inputs set_inputs set_info set_intermediate_results info opset
         set_base_onnx_exported set_opset];
    rewrite ?lookup_insert_eq; repeat split; try assumption; reflexivity.
Qed.

(** X10: when [ReceiveOnnxModel.fire] returns, the file that was at the
    path in [state.model] was an ONNX model; the files are now those of
    before with that path removed, the model at [base_onnx_file] and the
    narrowed inputs at [original_inputs_file]; and the stage has logged, in
    this order, the advisory when the opset is between the minimum and the
    default, the move, the saving of the inputs and the two success lines
    of the validator. *)
Theorem receive_moves_the_file
    (w : World) (path : string) (st' : State) (w' : World) :
  model (state w) = PyStr path ->
  fire E ReceiveOnnxModel w = (Return st', w') ->
  exists m : ModelProto,
    fs w !! path = Some (OnnxFile m)
    /\ fs w'
       = <[original_inputs_file (state w) :=
             InputsFile [map (fun kv => (fst kv, narrow (snd kv)))
                             (inputs (state w'))]]>
           (<[base_onnx_file (state w) := OnnxFile m]>
              (delete path (fs w)))
    /\ trace w'
       = trace w
         ++ (match declared_opset m with
             | Some v =>
                 if (v <? DEFAULT_ONNX_OPSET E) && (v >=? MINIMUM_ONNX_OPSET E)
                 then [EvPrint msg_advisory]
                 else []
             | None => []
             end)
         ++ [EvShutilMove path (base_onnx_file (state w));
             EvSaveInputs [inputs (state w')] (original_inputs_file (state w));
             EvPrint (Py.tab +:+ "Success receiving ONNX Model");
             EvPrint (Py.tab +:+ "Successfully checked onnx file")].
Proof.
  intros Hmodel Hrun.
  assert (Hwp : wp (fire E ReceiveOnnxModel)
            (fun _ w' =>
               exists m : ModelProto,
                 fs w !! path = Some (OnnxFile m)
                 /\ fs w'
                    = <[original_inputs_file (state w) :=
                          InputsFile [map (fun kv => (fst kv, narrow (snd kv)))
                                          (inputs (state w'))]]>
                        (<[base_onnx_file (state w) := OnnxFile m]>
                           (delete path (fs w)))
                 /\ trace w'
                    = trace w
                      ++ (match declared_opset m with
                          | Some v =>
                              if (v <? DEFAULT_ONNX_OPSET E)
                                 && (v >=? MINIMUM_ONNX_OPSET E)
                              then [EvPrint msg_advisory]
                              else []
                          | None => []
                          end)
                      ++ [EvShutilMove path (base_onnx_file (state w));
                          EvSaveInputs [inputs (state w')]
                            (original_inputs_file (state w));
                          EvPrint (Py.tab +:+ "Success receiving ONNX Model");
                          EvPrint (Py.tab
                                     +:+ "Successfully checked onnx file")])
            (fun _ _ => True) w).
  { cbn [fire]. unfold ReceiveOnnxModel_fire. wp_go E.
    destruct (negb (Py.endswith path ".onnx")); wp_go E; [exact I|].
    destruct (fs w !! path) as [[m|saved|bytes]|] eqn:Hfile; wp_go E;
      try exact I.
    destruct (Py.re_search_digits (opset_import_str m)) as [group|] eqn:Hs;
      wp_go E; [|exact I].
    destruct (has_dynamic (input_shapes_of m)); [exact I|].
    unfold check_opset.
    destruct ((Py.int group <? DEFAULT_ONNX_OPSET E)
              && (Py.int group >=? MINIMUM_ONNX_OPSET E)) eqn:Hadv;
      [|destruct (Py.int group <? MINIMUM_ONNX_OPSET E)];
      wp_go E; try exact I.
    all: match goal with
         | |- wp (if ?b then _ else _) _ _ _ => destruct b eqn:Hpass
         end; wp_go E; try exact I.
    all: exists m; split; [reflexivity|]; split; [reflexivity|].
    all: cbn [inputs set_inputs set_info set_intermediate_results].
    all: rewrite (check_model_log_passed E _ _ _ _ Hpass).
    all: unfold declared_opset; rewrite Hs, Hadv.
    all: rewrite <- ?app_assoc; reflexivity. }
  exact (wp_returns _ _ _ _ _ _ Hwp Hrun).
Qed.

(** X11: the name in the [ValueError] of [ExportPytorchModel.fire] is the
    first undeclared one in the iteration order of [state.inputs]: when the
    keys before [inp] are all declared and [inp] is not, the error names
    [inp], whatever keys follow, and the world is left as it was. *)
Theorem export_reports_the_first_unknown_name
    (w : World) (cls : string) (forward_params : list string)
    (before after : list string) (inp : string) :
  model (state w) = TorchModule cls forward_params ->
  Py.keys (inputs (state w)) = before ++ inp :: after ->
  (forall name, In name before -> In name forward_params) ->
  ~ In inp forward_params ->
  fire E ExportPytorchModel w
  = (Raise (ValueError (msg_input_name inp forward_params)), w).
Proof.
  intros Hmodel Hkeys Hbefore Hinp.
  assert (Hfirst : first_unknown (Py.keys (inputs (state w))) forward_params
                   = Some inp).
  { rewrite Hkeys. unfold first_unknown. clear Hkeys.
    induction before as [|k before IH]; cbn.
    - apply PyFacts.mem_false in Hinp. now rewrite Hinp.
    - assert (Hk : Py.mem k forward_params = true)
        by (apply PyFacts.mem_In, Hbefore; now left).
      rewrite Hk. cbn. apply IH. intros name Hin. apply Hbefore. now right. }
  assert (Hwp : wp (fire E ExportPytorchModel) (fun _ _ => False)
            (fun e w' =>
               e = ValueError (msg_input_name inp forward_params)
               /\ w' = w) w).
  { cbn [fire]. unfold ExportPytorchModel_fire. wp_go E. now split. }
  apply wp_fails in Hwp. now destruct Hwp as (e & w' & Hrun & -> & ->).
Qed.

End Inputs.

Section Pipeline.
Context (E : Env).

Lemma passes_checker_file files path :
  passes_checker E files path = true ->
  exists c, files !! path = Some c /\ onnx_checker E c = None.
Proof.
  unfold passes_checker. destruct (files !! path) as [c|]; [|discriminate].
  destruct (onnx_checker E c) eqn:Hc; [discriminate|]. eauto.
Qed.

(** X12: after a stage that produces an artifact has returned, a stage
    that reads [intermediate_results[0]] run next never fails for want of
    its input: if it raises, the error is neither an [IndexError] nor a
    [FileNotFoundError]. *)
Theorem next_stage_finds_the_artifact
    (s c : Stage) (slot : State -> string) (w : World)
    (st' : State) (w' : World) (e : Exception) (w'' : World) :
  artifact_slot s = Some slot ->
  fire E s w = (Return st', w') ->
  consumes_artifact c = true ->
  fire E c w' = (Raise e, w'') ->
  (forall msg, e <> IndexError msg)
  /\ (forall path, e <> FileNotFoundError path).
Proof.
  intros Hslot Hrun Hc Hnext.
  pose proof (wp_returns _ _ _ _ _ _ (fire_frame E s w) Hrun)
    as (-> & _ & Hart).
  rewrite Hslot in Hart. destruct Hart as [Hres Hpass].
  apply passes_checker_file in Hpass. destruct Hpass as (f & Hfile & _).
  assert (Hwp : wp (fire E c) (fun _ _ => True)
            (fun e _ => (forall msg, e <> IndexError msg)
                        /\ (forall path, e <> FileNotFoundError path)) w').
  { destruct c; try discriminate; cbn [fire];
      unfold OptimizeOnnxModel_fire, CheckOnnxCompatibility_fire,
        ConvertOnnxToFp16_fire.
    - wp_go E. wp_run E; try exact I; split; intros ?; discriminate.
    - wp_step. wp_call E. wp_step. wp_step.
      destruct (check_dependencies E true); wp_go E;
        [split; intros ?; discriminate|].
      wp_run E; try exact I; split; intros ?; discriminate.
    - wp_go E. wp_run E; try exact I; split; intros ?; discriminate. }
  exact (wp_raises _ _ _ _ _ _ Hwp Hnext).
Qed.

(** X14: the five stages have pairwise distinct [unique_name]s. *)
Theorem unique_names_are_unique (s1 s2 : Stage) :
  unique_name s1 = unique_name s2 -> s1 = s2.
Proof. destruct s1, s2; cbn; intros H; try reflexivity; discriminate. Qed.

(** X15: what [_check_model] prints.  When the file does not exist, only
    the fail message.  When it exists, the success message first, before
    the structural check is run, followed by the line of a successful
    check, or, when the check fails, by the error line and the checker's
    own message: a file that fails the check has still logged the success
    message. *)
Theorem check_model_log_order
    (onnx_file success_message fail_message : string) (w : World) :
  trace (snd (_check_model E onnx_file success_message fail_message w))
  = trace w
    ++ match fs w !! onnx_file with
       | None => [EvPrint fail_message]
       | Some c =>
           EvPrint success_message
           :: match onnx_checker E c with
              | None =>
                  [EvPrint (Py.tab +:+ "Successfully checked onnx file")]
              | Some e =>
                  [EvPrint
                     (Py.tab +:+ "Error while checking generated ONNX file");
                   EvPrint e]
              end
       end.
Proof.
  rewrite check_model_run. cbn.
  unfold check_model_log. destruct (fs w !! onnx_file) as [c|]; [|reflexivity].
  now destruct (onnx_checker E c).
Qed.

(** X16: once ONNX Runtime has returned, [OptimizeOnnxModel.fire] decides
    on the file found at [opt_onnx_file] alone: the file system is the one
    of before with the file the session wrote, if it wrote one;
    [info.opt_onnx_exported] is the validator's verdict on the file then
    found at [opt_onnx_file]; and the stage returns when that verdict is
    [True] and raises its postcondition error otherwise. *)
Theorem optimize_trusts_the_file_at_its_slot
    (w : World) (input_onnx : string) (rest : list string)
    (written : option File) :
  intermediate_results (state w) = input_onnx :: rest ->
  ort_optimize E (fs w !! input_onnx) = Done written ->
  exists (r : Result State) (w' : World),
    fire E OptimizeOnnxModel w = (r, w')
    /\ fs w' = match written with
               | Some c => <[opt_onnx_file (state w) := c]> (fs w)
               | None => fs w
               end
    /\ opt_onnx_exported (info (state w'))
       = Some (passes_checker E (fs w') (opt_onnx_file (state w)))
    /\ r = if passes_checker E (fs w') (opt_onnx_file (state w))
           then Return (state w')
           else Raise (GroqitStageError (msg_optimize_failed E)).
Proof.
  intros Hres Hort.
  apply wp_result with
    (P := fun (r : Result State) w' =>
       fs w' = match written with
               | Some c => <[opt_onnx_file (state w) := c]> (fs w)
               | None => fs w
               end
       /\ opt_onnx_exported (info (state w'))
          = Some (passes_checker E (fs w') (opt_onnx_file (state w)))
       /\ r = if passes_checker E (fs w') (opt_onnx_file (state w))
              then Return (state w')
              else Raise (GroqitStageError (msg_optimize_failed E))).
  cbn [fire]. unfold OptimizeOnnxModel_fire. wp_go E.
  destruct written as [c|]; wp_go E.
  all: match goal with
       | |- wp (if ?b then _ else _) _ _ _ => destruct b eqn:Hpass
       end; wp_go E.
  all: cbn [info set_info set_intermediate_results opt_onnx_exported
            set_opt_onnx_exported];
    rewrite ?Hpass; repeat split; reflexivity.
Qed.

(** X17: when the converter returns, [ConvertOnnxToFp16.fire] writes the
    converted model at [converted_onnx_file] and nowhere else, returns when
    the validator accepts it and raises its postcondition error otherwise;
    the input artifact is left in place unless it is itself at
    [converted_onnx_file]. *)
Theorem convert_writes_the_converted_model
    (w : World) (input_onnx : string) (rest : list string)
    (fp32_model fp16_model : ModelProto) :
  intermediate_results (state w) = input_onnx :: rest ->
  fs w !! input_onnx = Some (OnnxFile fp32_model) ->
  convert_float_to_float16 E fp32_model = Done fp16_model ->
  exists (r : Result State) (w' : World),
    fire E ConvertOnnxToFp16 w = (r, w')
    /\ fs w' = <[converted_onnx_file (state w) := OnnxFile fp16_model]> (fs w)
    /\ r = match onnx_checker E (OnnxFile fp16_model) with
           | None => Return (state w')
           | Some _ => Raise (GroqitStageError (msg_convert_failed E))
           end
    /\ (input_onnx <> converted_onnx_file (state w) ->
        fs w' !! input_onnx = Some (OnnxFile fp32_model)).
Proof.
  intros Hres Hfile Hconv.
  apply wp_result with
    (P := fun (r : Result State) w' =>
       fs w' = <[converted_onnx_file (state w) := OnnxFile fp16_model]> (fs w)
       /\ r = match onnx_checker E (OnnxFile fp16_model) with
              | None => Return (state w')
              | Some _ => Raise (GroqitStageError (msg_convert_failed E))
              end
       /\ (input_onnx <> converted_onnx_file (state w) ->
           fs w' !! input_onnx = Some (OnnxFile fp32_model))).
  cbn [fire]. unfold ConvertOnnxToFp16_fire. wp_go E.
  rewrite passes_checker_insert.
  destruct (onnx_checker E (OnnxFile fp16_model)); wp_go E;
    repeat split; try reflexivity;
    intros Hne; now rewrite lookup_insert_ne.
Qed.

End Pipeline.

Section EndToEnd.
Context (E : Env).


End EndToEnd.

(** ** The version that setup.py reads *)

Section Version.

Lemma split_nonempty (sep : ascii) (s : string) :
  exists h t, split sep s = h :: t.
Proof.
  induction s as [|c r (h & t & IH)]; cbn; [eauto|].
  destruct (Ascii.eqb c sep); [eauto|]. rewrite IH. eauto.
Qed.

Lemma split_without (sep : ascii) (s : string) :
  has_char sep s = false -> split sep s = [s].
Proof.
  induction s as [|c r IH]; cbn; [reflexivity|].
  destruct (Ascii.eqb c sep); cbn; [discriminate|].
  intros Hr. now rewrite (IH Hr).
Qed.

Lemma split_at_first (sep : ascii) (a b : string) :
  has_char sep a = false ->
  split sep (a +:+ String sep b) = a :: split sep b.
Proof.
  induction a as [|c r IH]; intros Ha.
  - rewrite PyFacts.append_nil_l. cbn. now rewrite Ascii.eqb_refl.
  - cbn in Ha. rewrite PyFacts.append_cons. cbn.
    destruct (Ascii.eqb c sep); cbn in Ha; [discriminate|].
    now rewrite (IH Ha).
Qed.

(** X18: when the content of version.py has a first double-quoted piece,
    that piece is the version [setup.py] reads, whatever precedes and
    follows it. *)
Theorem read_version_between_quotes (before version after : string) :
  has_char "034"%char before = false ->
  has_char "034"%char version = false ->
  read_version (before +:+ Py.dquote +:+ version +:+ Py.dquote +:+ after)
  = Return version.
Proof.
  intros Hb Hv. unfold read_version, Py.dquote.
  change (String "034"%char "" +:+ version +:+ String "034"%char "" +:+ after)
    with (String "034"%char
            (version +:+ String "034"%char "" +:+ after)).
  rewrite (split_at_first _ _ _ Hb).
  change (String "034"%char "" +:+ after) with (String "034"%char after).
  rewrite (split_at_first _ _ _ Hv).
  reflexivity.
Qed.

(** X19: [setup.py] gets a version exactly when the content of version.py
    holds a double quote; without one (a version written between single
    quotes, say) indexing the split raises [IndexError]. *)
Theorem read_version_needs_quotes (content : string) :
  (exists version, read_version content = Return version)
  <-> has_char "034"%char content = true.
Proof.
  unfold read_version. split.
  - intros (version & Hv).
    destruct (has_char "034"%char content) eqn:Hq; [reflexivity|].
    rewrite (split_without _ _ Hq) in Hv. discriminate.
  - induction content as [|c r IH]; cbn; [discriminate|].
    destruct (Ascii.eqb c "034"%char); cbn.
    + intros _. destruct (split_nonempty "034"%char r) as (h & t & ->).
      eauto.
    + intros Hr. destruct (IH Hr) as (version & Hv).
      destruct (split "034"%char r) as [|h [|v t]]; try discriminate.
      eauto.
Qed.

End Version.

(** ** The further properties on a concrete build *)

Section ConcreteMore.
Import Examples.

Lemma receive_rejects_other_models_witness :
  exists msg : string,
    fire ex_env ReceiveOnnxModel (ex_export (PyOther "int") [])
    = (Raise (GroqitStageError msg), ex_export (PyOther "int") [])
    /\ Py.contains "<class 'int'>" msg.
Proof.
  destruct (receive_rejects_other_models ex_env
              (ex_export (PyOther "int") []) eq_refl)
    as (msg & Hrun & _ & Hshown).
  exists msg. split; [exact Hrun | exact Hshown].
Defined.

Lemma export_rejects_other_models_witness :
  fire ex_env ExportPytorchModel (ex_export (PyStr "m.onnx") [])
  = (Raise (GroqitStageError (msg_export_type (PyStr "m.onnx"))),
     ex_export (PyStr "m.onnx") []).
Proof.
  exact (proj1 (export_rejects_other_models ex_env
                  (ex_export (PyStr "m.onnx") []) I)).
Defined.

Lemma receive_unreadable_model_witness :
  exists w' : World,
    fire ex_env ReceiveOnnxModel (ex_export (PyStr "m.onnx") [])
    = (Raise (FileNotFoundError "m.onnx"), w')
    /\ fs w' = fs (ex_export (PyStr "m.onnx") []).
Proof.
  destruct (receive_unreadable_model ex_env
              (ex_export (PyStr "m.onnx") []) "m.onnx" eq_refl eq_refl)
    as (w' & Hrun & Hfs & _).
  - intros m Hm. vm_compute in Hm. discriminate.
  - exists w'. split; [exact Hrun | exact Hfs].
Defined.

Lemma consumers_need_an_artifact_witness :
  fire ex_env OptimizeOnnxModel (ex_receive 13 1 ["Conv"; "Relu"])
  = (Raise (IndexError "list index out of range"),
     ex_receive 13 1 ["Conv"; "Relu"]).
Proof.
  exact (proj1 (consumers_need_an_artifact ex_env
                  (ex_receive 13 1 ["Conv"; "Relu"]) eq_refl)).
Defined.

Lemma files_touched_only_before_postcondition_error_witness :
  exists (e : Exception) (w' : World),
    fire ex_env ReceiveOnnxModel (ex_receive 13 1 ["Conv"; ""])
    = (Raise e, w')
    /\ (fs w' = fs (ex_receive 13 1 ["Conv"; ""])
        \/ (postcondition_error ex_env ReceiveOnnxModel = Some e
            /\ exported_flag ReceiveOnnxModel (info (state w'))
               = Some false)).
Proof.
  destruct (fire ex_env ReceiveOnnxModel (ex_receive 13 1 ["Conv"; ""]))
    as [[st'|e] w'] eqn:Hrun; [vm_compute in Hrun; discriminate|].
  exists e, w'. split; [reflexivity|].
  apply (files_touched_only_before_postcondition_error ex_env
           ReceiveOnnxModel _ e w' Hrun).
  vm_compute in Hrun. injection Hrun as <- _. reflexivity.
Defined.

Lemma returning_stage_sets_its_flag_witness :
  exists (st' : State) (w' : World),
    fire ex_env OptimizeOnnxModel (ex_after_base ["Conv"; "Relu"])
    = (Return st', w')
    /\ opt_onnx_exported (info st') = Some true.
Proof.
  destruct (fire ex_env OptimizeOnnxModel (ex_after_base ["Conv"; "Relu"]))
    as [[st'|e] w'] eqn:Hrun; [|vm_compute in Hrun; discriminate].
  exists st', w'. split; [reflexivity|].
  exact (returning_stage_sets_its_flag ex_env OptimizeOnnxModel
           opt_onnx_file _ st' w' eq_refl Hrun).
Defined.

Lemma compatibility_records_the_answer_witness :
  exists (r : Result State) (w' : World),
    fire ex_env CheckOnnxCompatibility (ex_after_base ["Conv"; "Einsum"])
    = (r, w')
    /\ opt_onnx_unsupported_ops (info (state w')) = Some ["Einsum"]
    /\ opt_onnx_all_ops_supported (info (state w')) = Some false.
Proof.
  destruct (compatibility_records_the_answer ex_env
              (ex_after_base ["Conv"; "Einsum"]) "build/m-base.onnx" []
              ["Conv"; "Einsum"] ["Einsum"] eq_refl eq_refl eq_refl)
    as (r & w' & Hrun & _ & Hunsupported & Hall & _).
  exists r, w'. repeat split; assumption.
Defined.

Lemma inputs_survive_the_stage_witness :
  inputs (state (snd (fire ex_env ReceiveOnnxModel
                        (ex_receive 13 1 ["Conv"; "Relu"]))))
  = [("x", Some ex_tensor)].
Proof.
  apply (inputs_survive_the_stage ex_env ReceiveOnnxModel
           (ex_receive 13 1 ["Conv"; "Relu"])).
  cbn. constructor; [intros [] | constructor].
Defined.

Lemma export_pads_the_inputs_witness :
  exists (r : Result State) (w' : World),
    fire ex_env ExportPytorchModel
         (ex_export (TorchModule "Net" ["x"; "mask"])
                    [("x", Some ex_tensor)]) = (r, w')
    /\ inputs (state w') = [("x", Some ex_tensor); ("mask", None)].
Proof.
  destruct (export_pads_the_inputs ex_env
              (ex_export (TorchModule "Net" ["x"; "mask"])
                         [("x", Some ex_tensor)])
              "Net" ["x"; "mask"]
              (Some (OnnxFile (ex_exported ["x"; "mask"] 13))) eq_refl)
    as (r & w' & Hrun & Hinputs & _).
  - constructor; [intros [H|[]]; discriminate|].
    constructor; [intros [] | constructor].
  - intros name [<-|[]]. now left.
  - reflexivity.
  - exists r, w'. split; [exact Hrun | exact Hinputs].
Defined.

Lemma receive_moves_the_file_witness :
  exists (st' : State) (w' : World),
    fire ex_env ReceiveOnnxModel (ex_receive 13 1 ["Conv"; "Relu"])
    = (Return st', w')
    /\ fs w' !! "build/m-base.onnx"
       = Some (OnnxFile (ex_model 13 1 ["Conv"; "Relu"]))
    /\ fs w' !! "m.onnx" = None.
Proof.
  destruct (fire ex_env ReceiveOnnxModel (ex_receive 13 1 ["Conv"; "Relu"]))
    as [[st'|e] w'] eqn:Hrun; [|vm_compute in Hrun; discriminate].
  exists st', w'. split; [reflexivity|].
  destruct (receive_moves_the_file ex_env
              (ex_receive 13 1 ["Conv"; "Relu"]) "m.onnx" st' w'
              eq_refl Hrun)
    as (m & Hfile & Hfs & _).
  vm_compute in Hfile. injection Hfile as <-. rewrite Hfs.
  split; reflexivity.
Defined.

Lemma next_stage_finds_the_artifact_witness :
  exists (st' : State) (w' : World) (e : Exception) (w'' : World),
    fire ex_env ReceiveOnnxModel (ex_receive 13 1 ["Conv"; "Einsum"])
    = (Return st', w')
    /\ fire ex_env CheckOnnxCompatibility w' = (Raise e, w'')
    /\ (forall msg, e <> IndexError msg).
Proof.
  destruct (fire ex_env ReceiveOnnxModel (ex_receive 13 1 ["Conv"; "Einsum"]))
    as [[st'|e] w'] eqn:Hrun; [|vm_compute in Hrun; discriminate].
  destruct (fire ex_env CheckOnnxCompatibility w') as [[st''|e] w''] eqn:Hnext.
  { vm_compute in Hrun. injection Hrun as _ <-.
    vm_compute in Hnext. discriminate. }
  exists st', w', e, w''. split; [reflexivity|]. split; [exact Hnext|].
  exact (proj1 (next_stage_finds_the_artifact ex_env ReceiveOnnxModel
                  CheckOnnxCompatibility base_onnx_file _ st' w' e w''
                  eq_refl Hrun eq_refl Hnext)).
Defined.


Lemma unique_names_are_unique_witness :
  OptimizeOnnxModel = OptimizeOnnxModel.
Proof.
  exact (unique_names_are_unique OptimizeOnnxModel OptimizeOnnxModel eq_refl).
Defined.

Lemma export_reports_the_first_unknown_name_witness :
  fire ex_env ExportPytorchModel
       (ex_export (TorchModule "Net" ["x"; "mask"])
                  [("x", Some ex_tensor); ("y", None); ("z", None)])
  = (Raise (ValueError (msg_input_name "y" ["x"; "mask"])),
     ex_export (TorchModule "Net" ["x"; "mask"])
               [("x", Some ex_tensor); ("y", None); ("z", None)]).
Proof.
  apply (export_reports_the_first_unknown_name ex_env
           (ex_export (TorchModule "Net" ["x"; "mask"])
                      [("x", Some ex_tensor); ("y", None); ("z", None)])
           "Net" ["x"; "mask"] ["x"] ["z"] "y" eq_refl eq_refl).
  - intros name [<-|[]]. now left.
  - intros [H|[H|[]]]; discriminate.
Defined.

Lemma optimize_trusts_the_file_at_its_slot_witness :
  exists (r : Result State) (w' : World),
    fire ex_env OptimizeOnnxModel (ex_after_base ["Conv"; "Relu"]) = (r, w')
    /\ fs w' = <["build/m-opt.onnx" := OnnxFile (ex_model 13 1 ["Conv"; "Relu"])]>
                 (fs (ex_after_base ["Conv"; "Relu"])).
Proof.
  destruct (optimize_trusts_the_file_at_its_slot ex_env
              (ex_after_base ["Conv"; "Relu"]) "build/m-base.onnx" []
              (Some (OnnxFile (ex_model 13 1 ["Conv"; "Relu"])))
              eq_refl eq_refl)
    as (r & w' & Hrun & Hfs & _).
  exists r, w'. split; [exact Hrun | exact Hfs].
Defined.

Lemma convert_writes_the_converted_model_witness :
  exists (r : Result State) (w' : World),
    fire ex_env ConvertOnnxToFp16 (ex_after_base ["Conv"; "Relu"]) = (r, w')
    /\ fs w' !! "build/m-base.onnx"
       = Some (OnnxFile (ex_model 13 1 ["Conv"; "Relu"])).
Proof.
  destruct (convert_writes_the_converted_model ex_env
              (ex_after_base ["Conv"; "Relu"]) "build/m-base.onnx" []
              (ex_model 13 1 ["Conv"; "Relu"])
              (ex_model 13 1 ["Conv"; "Relu"]) eq_refl eq_refl eq_refl)
    as (r & w' & Hrun & _ & _ & Hkept).
  exists r, w'. split; [exact Hrun|]. apply Hkept. cbn. discriminate.
Defined.

Lemma read_version_between_quotes_witness :
  read_version ("__version__ = " +:+ Py.dquote +:+ "4.3.0" +:+ Py.dquote
                  +:+ Py.nl)
  = Return "4.3.0".
Proof.
  exact (read_version_between_quotes "__version__ = " "4.3.0" Py.nl
           eq_refl eq_refl).
Defined.

End ConcreteMore.
